(** * The e-book reader: content store, library controller and reader

    A shallow embedding of the TypeScript sources

      - [db/database.ts]   (the Content Store: [getAllBooks],
                            [getChaptersByBookId], [getAllAuthors]),
      - [App.tsx]          (the Library Query Controller, the preference
                            state and the book selection handler),
      - [components/Reader.tsx] (the reader's choice of screen),

    followed by the properties of the specification that concern them.

    Conventions.  JavaScript numbers are modelled as [Z] (every number the
    modelled code handles is an integer: ids, indices, counts, pages).
    Optional object fields are [option]s, [undefined] and SQL [NULL] are
    [None].  A rejected promise / thrown [Error] is [Throw msg], where
    [msg] is the error's message.  The favourites array is a [list Z], the
    bookmarks object (a [Record<number, number>]) a [gmap Z Z]. *)

From Stdlib Require Import ZArith String Ascii List Bool Lia QArith.
From Stdlib Require Import Sorting.Sorted Sorting.Permutation.
From stdpp Require Import gmap strings list fin_maps pretty.

Local Open Scope string_scope.
Local Open Scope Z_scope.

(** ** JavaScript helpers *)

Module Js.

(** Truthiness of an optional number: [undefined] and [0] are falsy. *)
Definition truthy_num (o : option Z) : bool :=
  match o with
  | Some n => negb (n =? 0)
  | None => false
  end.

(** [o || d] on numbers. *)
Definition or_num (o : option Z) (d : Z) : Z :=
  match o with
  | Some n => if n =? 0 then d else n
  | None => d
  end.

(** Truthiness of an optional string: [undefined], [null] and [''] are
    falsy. *)
Definition truthy_str (o : option string) : bool :=
  match o with
  | Some s => negb (String.eqb s "")
  | None => false
  end.

(** [o || d] on strings. *)
Definition or_str (o : option string) (d : string) : string :=
  match o with
  | Some s => if String.eqb s "" then d else s
  | None => d
  end.

Definition truthy_bool (o : option bool) : bool :=
  match o with
  | Some b => b
  | None => false
  end.

(** [hay.includes(needle)]. *)
Fixpoint includes (hay needle : string) : bool :=
  String.prefix needle hay ||
  match hay with
  | EmptyString => false
  | String _ hay' => includes hay' needle
  end.

(** [s.startsWith(p)]. *)
Definition startsWith (s p : string) : bool := String.prefix p s.

(** [arr[i]] for a number [i]: [undefined] outside [0 .. length - 1]. *)
Definition index {A : Type} (arr : list A) (i : Z) : option A :=
  if (0 <=? i) && (i <? Z.of_nat (length arr))
  then nth_error arr (Z.to_nat i)
  else None.

(** [Math.ceil(a / b)] for integers [a] and [b <> 0]. *)
Definition ceil_div (a b : Z) : Z := - ((- a) / b).

End Js.

(** ** A thrown error or a value *)

Inductive result (A : Type) : Type :=
| Ok (a : A)
| Throw (msg : string).
Arguments Ok {A} a.
Arguments Throw {A} msg.

(** ** SQL helpers: the fragment of SQLite the queries use *)

Module Sql.

Definition lower (c : ascii) : ascii :=
  let n := nat_of_ascii c in
  if ((65 <=? n) && (n <=? 90))%nat then ascii_of_nat (n + 32) else c.

(** [s LIKE pat]: [%] matches any run of characters, [_] any single
    character, every other character itself, ASCII letters without
    regard to case.  A character is a byte of the string here. *)
Fixpoint like (pat s : string) : bool :=
  match pat with
  | EmptyString =>
      match s with EmptyString => true | String _ _ => false end
  | String c pat' =>
      if Ascii.eqb c "%" then
        (fix any (s : string) : bool :=
           like pat' s ||
           match s with
           | EmptyString => false
           | String _ s' => any s'
           end) s
      else if Ascii.eqb c "_" then
        match s with
        | EmptyString => false
        | String _ s' => like pat' s'
        end
      else
        match s with
        | EmptyString => false
        | String d s' => Ascii.eqb (lower c) (lower d) && like pat' s'
        end
  end.

(** The pattern [`%${s}%`]. *)
Definition contains_pattern (s : string) : string := "%" ++ s ++ "%".

Section OrderBy.
Context {A : Type} (key : A -> Z).

Fixpoint insert_by (x : A) (l : list A) : list A :=
  match l with
  | [] => [x]
  | y :: l' =>
      if key x <=? key y then x :: y :: l' else y :: insert_by x l'
  end.

(** [ORDER BY key ASC]: rows with equal keys keep their order. *)
Definition order_by (l : list A) : list A := foldr insert_by [] l.
End OrderBy.

(** [ORDER BY RANDOM()]: the engine draws one number per row and sorts
    the rows by it; [rnd i] is the number drawn for the [i]-th row. *)
Definition order_by_random {A : Type} (rnd : nat -> Z) (l : list A)
  : list A :=
  (order_by fst (imap (fun i r => (rnd i, r)) l)).*2.

(** [LIMIT lim OFFSET off]: a negative limit means no limit, a negative
    offset means none. *)
Definition limit_offset {A : Type} (lim off : Z) (l : list A) : list A :=
  let l' := drop (Z.to_nat off) l in
  if lim <? 0 then l' else take (Z.to_nat lim) l'.

End Sql.

(** ** The Content Store ([db/database.ts]) *)

Module Database.

(** A row of the [books] table. *)
Module BookRow.
Record t : Type := mk {
  book_id : Z;
  title : string;
  author : string;
  cover_image : option string
}.
End BookRow.

(** A row of the [chapters] table. *)
Module ChapterRow.
Record t : Type := mk {
  chapter_id : Z;
  book_id : Z;
  chapter_number : Z;
  chapter_title : option string;
  body_text : string
}.
End ChapterRow.

Module Book.
Record t : Type := mk {
  book_id : Z;
  title : string;
  author : string;
  cover_url : string
}.
End Book.

Module Chapter.
Record t : Type := mk {
  chapter_id : Z;
  book_id : Z;
  chapter_number : Z;
  title : string;
  body_text : string
}.
End Chapter.

Module Author.
Record t : Type := mk {
  author : string;
  book_count : Z
}.
End Author.

(** The database file: its two tables, and the numbers its [RANDOM()]
    draws for the rows of a query. *)
Record Tables : Type := {
  books : list BookRow.t;
  chapters : list ChapterRow.t;
  random : nat -> Z
}.

(** What [getDb()] and the queries on it meet: a database that answers,
    or one on which every query is rejected with an error (the file or a
    table is missing, the connection was closed). *)
Inductive Store : Type :=
| Opened (db : Tables)
| Unavailable (msg : string).

(** The argument of [getAllBooks]. *)
Module Params.
Record t : Type := mk {
  page : option Z;
  limit : option Z;
  search : option string;
  title : option string;
  author : option string;
  random : option bool;
  ids : option (list Z)
}.
End Params.

Record Pagination : Type := {
  total : Z;
  page : Z;
  limit : Z;
  totalPages : Z
}.

Record Response : Type := {
  data : list Book.t;
  pagination : Pagination
}.

(** The entries of the [conditions] array, each with its parameter(s). *)
Inductive Condition : Type :=
| SearchLike (pat : string)      (* (title LIKE ? OR author LIKE ?) *)
| TitleLike (pat : string)       (* title LIKE ? *)
| AuthorLike (pat : string)      (* author LIKE ? *)
| BookIdIn (ids : list Z).       (* book_id IN (?,...,?) *)

Definition holds (row : BookRow.t) (c : Condition) : bool :=
  match c with
  | SearchLike pat =>
      Sql.like pat (BookRow.title row) || Sql.like pat (BookRow.author row)
  | TitleLike pat => Sql.like pat (BookRow.title row)
  | AuthorLike pat => Sql.like pat (BookRow.author row)
  | BookIdIn ids => existsb (Z.eqb (BookRow.book_id row)) ids
  end.

(** The [conditions] that [getAllBooks] pushes, in its order. *)
Definition conditions (params : Params.t) : list Condition :=
  (if Js.truthy_str (Params.search params)
   then [SearchLike (Sql.contains_pattern (default "" (Params.search params)))]
   else []) ++
  (if Js.truthy_str (Params.title params)
   then [TitleLike (Sql.contains_pattern (default "" (Params.title params)))]
   else []) ++
  (if Js.truthy_str (Params.author params)
   then [AuthorLike (Sql.contains_pattern (default "" (Params.author params)))]
   else []) ++
  (match Params.ids params with
   | Some l => if (0 <? length l)%nat then [BookIdIn l] else []
   | None => []
   end).

(** The [whereClause]: the conjunction of the conditions, nothing when
    there is none. *)
Definition whereClause (conds : list Condition) (row : BookRow.t) : bool :=
  forallb (holds row) conds.

Definition page_of (params : Params.t) : Z :=
  Js.or_num (Params.page params) 1.

Definition limit_of (params : Params.t) : Z :=
  Js.or_num (Params.limit params) 50.

Definition offset_of (params : Params.t) : Z :=
  (page_of params - 1) * limit_of params.

(** The cover of a row: the placeholder keyed by the id, the stored
    reference, or the stored data behind the embedding prefix. *)
Definition coverUrl (row : BookRow.t) : string :=
  if Js.truthy_str (BookRow.cover_image row) then
    let c := default "" (BookRow.cover_image row) in
    if Js.startsWith c "http" || Js.startsWith c "data:"
    then c
    else "data:image/jpeg;base64," ++ c
  else
    "https://picsum.photos/seed/" ++ pretty (BookRow.book_id row) ++ "/400/600".

Definition toBook (row : BookRow.t) : Book.t :=
  {| Book.book_id := BookRow.book_id row;
     Book.title := BookRow.title row;
     Book.author := BookRow.author row;
     Book.cover_url := coverUrl row |}.

Definition getAllBooks (st : Store) (params : Params.t) : result Response :=
  match st with
  | Unavailable msg => Throw msg
  | Opened db =>
      let page := page_of params in
      let limit := limit_of params in
      let offset := offset_of params in
      let matching := filter (fun r => whereClause (conditions params) r = true) (books db) in
      let total := Z.of_nat (length matching) in
      let ordered :=
        if Js.truthy_bool (Params.random params)
        then Sql.order_by_random (random db) matching
        else matching in
      let rows := Sql.limit_offset limit offset ordered in
      Ok {| data := map toBook rows;
            pagination := {| total := total;
                             page := page;
                             limit := limit;
                             totalPages := Js.ceil_div total limit |} |}
  end.

Definition toChapter (row : ChapterRow.t) : Chapter.t :=
  {| Chapter.chapter_id := ChapterRow.chapter_id row;
     Chapter.book_id := ChapterRow.book_id row;
     Chapter.chapter_number := ChapterRow.chapter_number row;
     Chapter.body_text := ChapterRow.body_text row;
     Chapter.title :=
       Js.or_str (ChapterRow.chapter_title row)
                 ("Chapter " ++ pretty (ChapterRow.chapter_number row)) |}.

(** The rows [... FROM chapters WHERE book_id = ? ORDER BY
    chapter_number ASC] selects. *)
Definition chapterRows (db : Tables) (bookId : Z) : list ChapterRow.t :=
  Sql.order_by ChapterRow.chapter_number
    (filter (fun r => ChapterRow.book_id r = bookId) (chapters db)).

Definition getChaptersByBookId (st : Store) (bookId : Z)
  : result (list Chapter.t) :=
  match st with
  | Unavailable msg => Throw msg
  | Opened db => Ok (map toChapter (chapterRows db bookId))
  end.

(** [GROUP BY author] with [COUNT( * )]: one group per author, in the
    order of first appearance. *)
Fixpoint bump (a : string) (groups : list Author.t) : list Author.t :=
  match groups with
  | [] => [Author.mk a 1]
  | g :: groups' =>
      if String.eqb (Author.author g) a
      then Author.mk a (Author.book_count g + 1) :: groups'
      else g :: bump a groups'
  end.

Definition group_by_author (rows : list BookRow.t) : list Author.t :=
  foldl (fun groups r => bump (BookRow.author r) groups) [] rows.

Definition getAllAuthors (st : Store) : result (list Author.t) :=
  match st with
  | Unavailable msg => Throw msg
  | Opened db =>
      Ok (Sql.order_by (fun g => - Author.book_count g)
            (group_by_author (books db)))
  end.

End Database.


(** ** The reader screen ([components/Reader.tsx]) *)

Module Reader.

Inductive Theme : Type := light | sepia | dark | navy.
Inductive FontFamily : Type := siliguri | noto | tiro.

Record ReaderSettings : Type := {
  theme : Theme;
  fontSize : Z;
  fontFamily : FontFamily;
  lineHeight : Q
}.

(** The properties the screen is chosen from (the callbacks
    [onNavigate], [onClose], [onSettingsChange] and [onToggleBookmark]
    are only attached to buttons). *)
Record ReaderProps : Type := {
  book : Database.Book.t;
  chapters : list Database.Chapter.t;
  currentChapterIndex : Z;
  isLoading : option bool;
  settings : ReaderSettings;
  isBookmarked : bool
}.

(** What the component returns. *)
Inductive View : Type :=
| LoadingChapter
| NoContentAvailable (bookTitle : string)
| ChapterContent (chapter : Database.Chapter.t)
                 (hasPrev hasNext : bool) (bookmarked : bool).

Definition Reader (props : ReaderProps) : View :=
  let chapter := Js.index (chapters props) (currentChapterIndex props) in
  let hasPrev := 0 <? currentChapterIndex props in
  let hasNext :=
    currentChapterIndex props <? Z.of_nat (length (chapters props)) - 1 in
  if Js.truthy_bool (isLoading props) then LoadingChapter
  else
    match chapter with
    | None => NoContentAvailable (Database.Book.title (book props))
    | Some c => ChapterContent c hasPrev hasNext (isBookmarked props)
    end.

End Reader.

(** ** The application component ([App.tsx]) *)

Module App.

(** The views ['home'], ['authors'], ['author_detail'], ['all-books'],
    ['favorites'] and ['bookmarks']. *)
Inductive ViewState : Type :=
| home | authors_view | author_detail | all_books
| favorites_view | bookmarks_view.

Inductive LoadingState : Type := idle | loading | success | error.

(** [v === w] on view names. *)
Definition view_eqb (v w : ViewState) : bool :=
  match v, w with
  | home, home | authors_view, authors_view
  | author_detail, author_detail | all_books, all_books
  | favorites_view, favorites_view | bookmarks_view, bookmarks_view => true
  | _, _ => false
  end.

(** The component's state variables (those the modelled code reads or
    writes). *)
Record AppState : Type := {
  dbReady : bool;
  dbMissing : bool;
  books : list Database.Book.t;
  authors : list Database.Author.t;
  selectedBook : option Database.Book.t;
  currentChapterIdx : Z;
  loadingState : LoadingState;
  loadingChapters : bool;
  chapters : list Database.Chapter.t;
  currentView : ViewState;
  selectedAuthor : option string;
  searchTerm : string;
  currentPage : Z;
  totalPages : Z;
  settings : Reader.ReaderSettings;
  favorites : list Z;
  bookmarks : gmap Z Z
}.

(** The state setters [setX(v)]. *)
Definition setDbReady (v : bool) (st : AppState) : AppState :=
  {| dbReady := v;
     dbMissing := dbMissing st;
     books := books st;
     authors := authors st;
     selectedBook := selectedBook st;
     currentChapterIdx := currentChapterIdx st;
     loadingState := loadingState st;
     loadingChapters := loadingChapters st;
     chapters := chapters st;
     currentView := currentView st;
     selectedAuthor := selectedAuthor st;
     searchTerm := searchTerm st;
     currentPage := currentPage st;
     totalPages := totalPages st;
     settings := settings st;
     favorites := favorites st;
     bookmarks := bookmarks st |}.

Definition setDbMissing (v : bool) (st : AppState) : AppState :=
  {| dbReady := dbReady st;
     dbMissing := v;
     books := books st;
     authors := authors st;
     selectedBook := selectedBook st;
     currentChapterIdx := currentChapterIdx st;
     loadingState := loadingState st;
     loadingChapters := loadingChapters st;
     chapters := chapters st;
     currentView := currentView st;
     selectedAuthor := selectedAuthor st;
     searchTerm := searchTerm st;
     currentPage := currentPage st;
     totalPages := totalPages st;
     settings := settings st;
     favorites := favorites st;
     bookmarks := bookmarks st |}.

Definition setBooks (v : list Database.Book.t) (st : AppState) : AppState :=
  {| dbReady := dbReady st;
     dbMissing := dbMissing st;
     books := v;
     authors := authors st;
     selectedBook := selectedBook st;
     currentChapterIdx := currentChapterIdx st;
     loadingState := loadingState st;
     loadingChapters := loadingChapters st;
     chapters := chapters st;
     currentView := currentView st;
     selectedAuthor := selectedAuthor st;
     searchTerm := searchTerm st;
     currentPage := currentPage st;
     totalPages := totalPages st;
     settings := settings st;
     favorites := favorites st;
     bookmarks := bookmarks st |}.

Definition setAuthors (v : list Database.Author.t) (st : AppState) : AppState :=
  {| dbReady := dbReady st;
     dbMissing := dbMissing st;
     books := books st;
     authors := v;
     selectedBook := selectedBook st;
     currentChapterIdx := currentChapterIdx st;
     loadingState := loadingState st;
     loadingChapters := loadingChapters st;
     chapters := chapters st;
     currentView := currentView st;
     selectedAuthor := selectedAuthor st;
     searchTerm := searchTerm st;
     currentPage := currentPage st;
     totalPages := totalPages st;
     settings := settings st;
     favorites := favorites st;
     bookmarks := bookmarks st |}.

Definition setSelectedBook (v : option Database.Book.t) (st : AppState) : AppState :=
  {| dbReady := dbReady st;
     dbMissing := dbMissing st;
     books := books st;
     authors := authors st;
     selectedBook := v;
     currentChapterIdx := currentChapterIdx st;
     loadingState := loadingState st;
     loadingChapters := loadingChapters st;
     chapters := chapters st;
     currentView := currentView st;
     selectedAuthor := selectedAuthor st;
     searchTerm := searchTerm st;
     currentPage := currentPage st;
     totalPages := totalPages st;
     settings := settings st;
     favorites := favorites st;
     bookmarks := bookmarks st |}.

Definition setCurrentChapterIdx (v : Z) (st : AppState) : AppState :=
  {| dbReady := dbReady st;
     dbMissing := dbMissing st;
     books := books st;
     authors := authors st;
     selectedBook := selectedBook st;
     currentChapterIdx := v;
     loadingState := loadingState st;
     loadingChapters := loadingChapters st;
     chapters := chapters st;
     currentView := currentView st;
     selectedAuthor := selectedAuthor st;
     searchTerm := searchTerm st;
     currentPage := currentPage st;
     totalPages := totalPages st;
     settings := settings st;
     favorites := favorites st;
     bookmarks := bookmarks st |}.

Definition setLoadingState (v : LoadingState) (st : AppState) : AppState :=
  {| dbReady := dbReady st;
     dbMissing := dbMissing st;
     books := books st;
     authors := authors st;
     selectedBook := selectedBook st;
     currentChapterIdx := currentChapterIdx st;
     loadingState := v;
     loadingChapters := loadingChapters st;
     chapters := chapters st;
     currentView := currentView st;
     selectedAuthor := selectedAuthor st;
     searchTerm := searchTerm st;
     currentPage := currentPage st;
     totalPages := totalPages st;
     settings := settings st;
     favorites := favorites st;
     bookmarks := bookmarks st |}.

Definition setLoadingChapters (v : bool) (st : AppState) : AppState :=
  {| dbReady := dbReady st;
     dbMissing := dbMissing st;
     books := books st;
     authors := authors st;
     selectedBook := selectedBook st;
     currentChapterIdx := currentChapterIdx st;
     loadingState := loadingState st;
     loadingChapters := v;
     chapters := chapters st;
     currentView := currentView st;
     selectedAuthor := selectedAuthor st;
     searchTerm := searchTerm st;
     currentPage := currentPage st;
     totalPages := totalPages st;
     settings := settings st;
     favorites := favorites st;
     bookmarks := bookmarks st |}.

Definition setChapters (v : list Database.Chapter.t) (st : AppState) : AppState :=
  {| dbReady := dbReady st;
     dbMissing := dbMissing st;
     books := books st;
     authors := authors st;
     selectedBook := selectedBook st;
     currentChapterIdx := currentChapterIdx st;
     loadingState := loadingState st;
     loadingChapters := loadingChapters st;
     chapters := v;
     currentView := currentView st;
     selectedAuthor := selectedAuthor st;
     searchTerm := searchTerm st;
     currentPage := currentPage st;
     totalPages := totalPages st;
     settings := settings st;
     favorites := favorites st;
     bookmarks := bookmarks st |}.

Definition setCurrentPage (v : Z) (st : AppState) : AppState :=
  {| dbReady := dbReady st;
     dbMissing := dbMissing st;
     books := books st;
     authors := authors st;
     selectedBook := selectedBook st;
     currentChapterIdx := currentChapterIdx st;
     loadingState := loadingState st;
     loadingChapters := loadingChapters st;
     chapters := chapters st;
     currentView := currentView st;
     selectedAuthor := selectedAuthor st;
     searchTerm := searchTerm st;
     currentPage := v;
     totalPages := totalPages st;
     settings := settings st;
     favorites := favorites st;
     bookmarks := bookmarks st |}.

Definition setTotalPages (v : Z) (st : AppState) : AppState :=
  {| dbReady := dbReady st;
     dbMissing := dbMissing st;
     books := books st;
     authors := authors st;
     selectedBook := selectedBook st;
     currentChapterIdx := currentChapterIdx st;
     loadingState := loadingState st;
     loadingChapters := loadingChapters st;
     chapters := chapters st;
     currentView := currentView st;
     selectedAuthor := selectedAuthor st;
     searchTerm := searchTerm st;
     currentPage := currentPage st;
     totalPages := v;
     settings := settings st;
     favorites := favorites st;
     bookmarks := bookmarks st |}.

Definition setSettings (v : Reader.ReaderSettings) (st : AppState) : AppState :=
  {| dbReady := dbReady st;
     dbMissing := dbMissing st;
     books := books st;
     authors := authors st;
     selectedBook := selectedBook st;
     currentChapterIdx := currentChapterIdx st;
     loadingState := loadingState st;
     loadingChapters := loadingChapters st;
     chapters := chapters st;
     currentView := currentView st;
     selectedAuthor := selectedAuthor st;
     searchTerm := searchTerm st;
     currentPage := currentPage st;
     totalPages := totalPages st;
     settings := v;
     favorites := favorites st;
     bookmarks := bookmarks st |}.

Definition setFavorites (v : list Z) (st : AppState) : AppState :=
  {| dbReady := dbReady st;
     dbMissing := dbMissing st;
     books := books st;
     authors := authors st;
     selectedBook := selectedBook st;
     currentChapterIdx := currentChapterIdx st;
     loadingState := loadingState st;
     loadingChapters := loadingChapters st;
     chapters := chapters st;
     currentView := currentView st;
     selectedAuthor := selectedAuthor st;
     searchTerm := searchTerm st;
     currentPage := currentPage st;
     totalPages := totalPages st;
     settings := settings st;
     favorites := v;
     bookmarks := bookmarks st |}.

Definition setBookmarks (v : gmap Z Z) (st : AppState) : AppState :=
  {| dbReady := dbReady st;
     dbMissing := dbMissing st;
     books := books st;
     authors := authors st;
     selectedBook := selectedBook st;
     currentChapterIdx := currentChapterIdx st;
     loadingState := loadingState st;
     loadingChapters := loadingChapters st;
     chapters := chapters st;
     currentView := currentView st;
     selectedAuthor := selectedAuthor st;
     searchTerm := searchTerm st;
     currentPage := currentPage st;
     totalPages := totalPages st;
     settings := settings st;
     favorites := favorites st;
     bookmarks := v |}.

(** What [AsyncStorage] holds under the keys ['reader-settings'],
    ['favorites'] and ['bookmarks']: nothing, or the value that
    [JSON.parse] reads back from what the persist effect wrote with
    [JSON.stringify]. *)
Record AsyncStorage : Type := {
  reader_settings_item : option Reader.ReaderSettings;
  favorites_item : option (list Z);
  bookmarks_item : option (gmap Z Z)
}.

(** The world outside the component: the store as the [n]-th call of a
    store function finds it (the database file can be replaced and the
    connection closed or re-opened between two calls), and the key-value
    storage. *)
Record World : Type := {
  storeAt : nat -> Database.Store;
  storage : AsyncStorage
}.

(** The calls a handler makes, in the order it makes them. *)
Inductive Event : Type :=
| CallGetAllBooks (params : Database.Params.t)
| CallGetChaptersByBookId (bookId : Z)
| CallGetAllAuthors
| CallRunFullInit.

(** A running handler: the component state after the setters called so
    far, the number of store calls made, and the calls made. *)
Record Machine : Type := {
  app : AppState;
  calls : nat;
  trace : list Event
}.

(** An asynchronous handler: it steps the machine and ends in a value or
    in a thrown error. *)
Definition M (A : Type) : Type := Machine -> result A * Machine.

Definition ret {A : Type} (a : A) : M A := fun m => (Ok a, m).

Definition bind {A B : Type} (c : M A) (k : A -> M B) : M B :=
  fun m =>
    match c m with
    | (Ok a, m') => k a m'
    | (Throw e, m') => (Throw e, m')
    end.

Notation "x <- c ;; k" := (bind c (fun x => k))
  (at level 100, c at next level, right associativity).
Notation "c ;;; k" := (bind c (fun _ => k))
  (at level 100, right associativity).

(** [setX(v)]. *)
Definition set (f : AppState -> AppState) : M unit :=
  fun m => (Ok tt, {| app := f (app m); calls := calls m; trace := trace m |}).

Definition note (ev : Event) : M unit :=
  fun m => (Ok tt, {| app := app m; calls := calls m; trace := trace m ++ [ev] |}).

(** [await f(...)] for a store function [f]. *)
Definition callStore {A : Type} (w : World) (ev : Event)
  (f : Database.Store -> result A) : M A :=
  fun m =>
    (f (storeAt w (calls m)),
     {| app := app m; calls := S (calls m); trace := trace m ++ [ev] |}).

(** [try { body } catch (err) { handler }]. *)
Definition tryCatch {A : Type} (body : M A) (handler : string -> M A) : M A :=
  fun m =>
    match body m with
    | (Ok a, m') => (Ok a, m')
    | (Throw e, m') => handler e m'
    end.

(** [try { body } finally { fin }]. *)
Definition tryFinally {A : Type} (body : M A) (fin : M unit) : M A :=
  fun m =>
    match body m with
    | (r, m') =>
        match fin m' with
        | (Ok _, m'') => (r, m'')
        | (Throw e, m'') => (Throw e, m'')
        end
    end.

Definition when (b : bool) (c : M unit) : M unit :=
  if b then c else ret tt.

Definition whenSome {A : Type} (o : option A) (c : A -> M unit) : M unit :=
  match o with
  | Some a => c a
  | None => ret tt
  end.

Definition runFullInit (w : World) : M unit :=
  note CallRunFullInit ;;;
  set (setLoadingState loading) ;;;
  whenSome (reader_settings_item (storage w)) (fun v => set (setSettings v)) ;;;
  whenSome (favorites_item (storage w)) (fun v => set (setFavorites v)) ;;;
  whenSome (bookmarks_item (storage w)) (fun v => set (setBookmarks v)) ;;;
  authorList <- callStore w CallGetAllAuthors Database.getAllAuthors ;;
  set (setAuthors authorList) ;;;
  set (setDbReady true) ;;;
  set (setDbMissing false).

(** [Object.keys(bookmarks).map(Number)]. *)
Definition bookmarkKeys (bm : gmap Z Z) : list Z := (map_to_list bm).*1.

(** The [filters] object of the fetch effect, spread over
    [{page: currentPage, limit: 20, search: searchTerm}]. *)
Definition fetchParams (c : AppState) : Database.Params.t :=
  {| Database.Params.page := Some (currentPage c);
     Database.Params.limit := Some 20;
     Database.Params.search := Some (searchTerm c);
     Database.Params.title := None;
     Database.Params.author :=
       if view_eqb (currentView c) author_detail
          && Js.truthy_str (selectedAuthor c)
       then selectedAuthor c else None;
     Database.Params.random :=
       if view_eqb (currentView c) home then Some true else None;
     Database.Params.ids :=
       if view_eqb (currentView c) favorites_view
       then Some (favorites c)
       else if view_eqb (currentView c) bookmarks_view
       then Some (bookmarkKeys (bookmarks c))
       else None |}.

(** The test that ends the fetch without a query. *)
Definition emptyIdView (c : AppState) : bool :=
  (view_eqb (currentView c) favorites_view
   && (length (favorites c) =? 0)%nat)
  || (view_eqb (currentView c) bookmarks_view
      && (length (bookmarkKeys (bookmarks c)) =? 0)%nat).

(** Does the message look like a connection issue? *)
Definition connectionIssue (message : string) : bool :=
  Js.includes message "no such table"
  || Js.includes message "database is closed".

(** The callback of the fetch effect's timer; [c] is the state the
    effect's render closed over. *)
Definition fetchBooksTimer (w : World) (c : AppState) : M unit :=
  tryCatch
    (if emptyIdView c then
       set (setBooks []) ;;;
       set (setTotalPages 1) ;;;
       set (setLoadingState success)
     else
       response <- callStore w (CallGetAllBooks (fetchParams c))
                     (fun st => Database.getAllBooks st (fetchParams c)) ;;
       set (setBooks (Database.data response)) ;;;
       set (setTotalPages (Database.totalPages (Database.pagination response))) ;;;
       set (setLoadingState success))
    (fun err =>
       when (connectionIssue err) (runFullInit w) ;;;
       set (setLoadingState error)).

(** The fetch effect, its timer having fired. *)
Definition fetchBooksEffect (w : World) (c : AppState) : M unit :=
  if dbReady c then
    set (setLoadingState loading) ;;;
    fetchBooksTimer w c
  else ret tt.

(** [handleBookSelect(book)]; [c] is the state its render closed over. *)
Definition handleBookSelect (w : World) (c : AppState)
  (book : Database.Book.t) : M unit :=
  set (setSelectedBook (Some book)) ;;;
  set (setLoadingChapters true) ;;;
  tryFinally
    (tryCatch
       (bookChapters <-
          callStore w (CallGetChaptersByBookId (Database.Book.book_id book))
            (fun st => Database.getChaptersByBookId st (Database.Book.book_id book)) ;;
        set (setChapters bookChapters) ;;;
        let savedChapter := bookmarks c !! Database.Book.book_id book in
        set (setCurrentChapterIdx
               (match savedChapter with Some i => i | None => 0 end)))
       (fun err => ret tt))
    (set (setLoadingChapters false)).

(** The updater of [toggleFavorite]. *)
Definition toggleFavoriteUpdate (bookId : Z) (prev : list Z) : list Z :=
  if decide (bookId ∈ prev)
  then filter (fun id => id ≠ bookId) prev
  else prev ++ [bookId].

Definition toggleFavorite (bookId : Z) (st : AppState) : AppState :=
  setFavorites (toggleFavoriteUpdate bookId (favorites st)) st.

(** The updater of [toggleBookmark]. *)
Definition toggleBookmarkUpdate (bookId chapterIndex : Z) (prev : gmap Z Z)
  : gmap Z Z :=
  let next := prev in
  if decide (next !! bookId = Some chapterIndex)
  then delete bookId next
  else <[bookId := chapterIndex]> next.

Definition toggleBookmark (bookId chapterIndex : Z) (st : AppState)
  : AppState :=
  setBookmarks (toggleBookmarkUpdate bookId chapterIndex (bookmarks st)) st.

(** The [isBookmarked] property handed to the reader. *)
Definition isBookmarkedFlag (st : AppState) (book : Database.Book.t) : bool :=
  bool_decide (bookmarks st !! Database.Book.book_id book
               = Some (currentChapterIdx st)).

(** What the component renders. *)
Inductive Screen : Type :=
| LoadingAssets
| DatabaseNotFound
| SettingUpLibrary
| ReaderScreen (props : Reader.ReaderProps)
| LibraryScreen.

Definition render (fontsLoaded : bool) (st : AppState) : Screen :=
  if negb fontsLoaded then LoadingAssets
  else if dbMissing st then DatabaseNotFound
  else if negb (dbReady st) then SettingUpLibrary
  else
    match selectedBook st with
    | Some book =>
        ReaderScreen
          {| Reader.book := book;
             Reader.chapters := chapters st;
             Reader.currentChapterIndex := currentChapterIdx st;
             Reader.isLoading := Some (loadingChapters st);
             Reader.settings := settings st;
             Reader.isBookmarked := isBookmarkedFlag st book |}
    | None => LibraryScreen
    end.

(** The state of the first render (the [useState] initial values). *)
Definition initialState : AppState :=
  {| dbReady := false;
     dbMissing := false;
     books := [];
     authors := [];
     selectedBook := None;
     currentChapterIdx := 0;
     loadingState := loading;
     loadingChapters := false;
     chapters := [];
     currentView := home;
     selectedAuthor := None;
     searchTerm := "";
     currentPage := 1;
     totalPages := 1;
     settings := {| Reader.theme := Reader.light;
                    Reader.fontSize := 18;
                    Reader.fontFamily := Reader.siliguri;
                    Reader.lineHeight := (16 # 10)%Q |};
     favorites := [];
     bookmarks := ∅ |}.

Definition setCurrentView (v : ViewState) (st : AppState) : AppState :=
  {| dbReady := dbReady st;
     dbMissing := dbMissing st;
     books := books st;
     authors := authors st;
     selectedBook := selectedBook st;
     currentChapterIdx := currentChapterIdx st;
     loadingState := loadingState st;
     loadingChapters := loadingChapters st;
     chapters := chapters st;
     currentView := v;
     selectedAuthor := selectedAuthor st;
     searchTerm := searchTerm st;
     currentPage := currentPage st;
     totalPages := totalPages st;
     settings := settings st;
     favorites := favorites st;
     bookmarks := bookmarks st |}.

(** Running a handler from a state. *)
Definition start (st : AppState) : Machine :=
  {| app := st; calls := 0; trace := [] |}.

Definition count_event (p : Event -> bool) (evs : list Event) : nat :=
  length (List.filter p evs).

Definition isRunFullInit (ev : Event) : bool :=
  match ev with CallRunFullInit => true | _ => false end.

Definition isGetAllBooks (ev : Event) : bool :=
  match ev with CallGetAllBooks _ => true | _ => false end.

End App.

(** ** Concrete libraries, worlds and states *)

Module Examples.
Import Database.

Definition book (i : Z) (t a : string) : BookRow.t :=
  BookRow.mk i t a None.

Definition chapter (i b n : Z) : ChapterRow.t :=
  ChapterRow.mk i b n None "...".

(** A call of [getAllBooks] with the given [page], [limit] and [ids] and
    no other filter. *)
Definition query (page limit : option Z) (ids : option (list Z)) : Params.t :=
  Params.mk page limit None None None None ids.

(** [getAllBooks] with [ids] replaced. *)
Definition withIds (ids : option (list Z)) (p : Params.t) : Params.t :=
  Params.mk (Params.page p) (Params.limit p) (Params.search p)
            (Params.title p) (Params.author p) (Params.random p) ids.

(** One book with two chapters. *)
Definition oneBook : Tables :=
  {| books := [book 1 "Gitanjali" "Rabindranath Tagore"];
     chapters := [chapter 10 1 1; chapter 11 1 2];
     random := fun _ => 0 |}.

(** Twenty-five books, no chapters. *)
Definition library25 : Tables :=
  {| books := map (fun i => book (Z.of_nat i) "Title" "Author") (seq 1 25);
     chapters := [];
     random := fun i => (Z.of_nat i * 7) mod 5 |}.

(** A book with ten chapters. *)
Definition tenChapters : Tables :=
  {| books := [book 1 "Gitanjali" "Rabindranath Tagore"];
     chapters := map (fun i => chapter (Z.of_nat i) 1 (Z.of_nat i)) (seq 1 10);
     random := fun _ => 0 |}.

(** A book two of whose chapters carry the same [chapter_number]. *)
Definition repeatedNumber : Tables :=
  {| books := [book 1 "Gitanjali" "Rabindranath Tagore"];
     chapters := [chapter 10 1 1; chapter 11 1 1];
     random := fun _ => 0 |}.

Definition noStorage : App.AsyncStorage :=
  {| App.reader_settings_item := None;
     App.favorites_item := None;
     App.bookmarks_item := None |}.

(** The connection is found closed by the first store call and re-opened
    by every later one. *)
Definition closedOnce : App.World :=
  {| App.storeAt := fun n =>
       match n with
       | O => Unavailable "Error: database is closed"
       | S _ => Opened oneBook
       end;
     App.storage := noStorage |}.

(** The store never answers. *)
Definition noTable : App.World :=
  {| App.storeAt := fun _ => Unavailable "no such table: books";
     App.storage := noStorage |}.

Definition steady (db : Tables) : App.World :=
  {| App.storeAt := fun _ => Opened db;
     App.storage := noStorage |}.

(** The library on the home view, ready. *)
Definition ready : App.AppState := App.setDbReady true App.initialState.

(** The reader was left at chapter index 3 of some book. *)
Definition leftAtThree : App.AppState := App.setCurrentChapterIdx 3 ready.

(** Book 1 is bookmarked at chapter index 4. *)
Definition markedAtFour : App.AppState :=
  App.setBookmarks {[ 1 := 4 ]} ready.

Definition gitanjali : Book.t := toBook (book 1 "Gitanjali" "Rabindranath Tagore").
Definition otherBook : Book.t := toBook (book 2 "Other" "Nobody").

Definition emptyReader (isLoading : option bool) : Reader.ReaderProps :=
  {| Reader.book := gitanjali;
     Reader.chapters := [];
     Reader.currentChapterIndex := 0;
     Reader.isLoading := isLoading;
     Reader.settings := App.settings App.initialState;
     Reader.isBookmarked := false |}.

(** The reader on the two chapters of [oneBook], at index [i]. *)
Definition twoChapterReader (i : Z) : Reader.ReaderProps :=
  {| Reader.book := gitanjali;
     Reader.chapters := map toChapter (chapterRows oneBook 1);
     Reader.currentChapterIndex := i;
     Reader.isLoading := None;
     Reader.settings := App.settings App.initialState;
     Reader.isBookmarked := false |}.

End Examples.

(** ** The database file and the connection ([db/database.ts], lines 5-88) *)

Module Device.

Definition DB_NAME : string := "books.db".

(** What the document picker returns: [result.canceled], or the file
    copied to the cache, [result.assets[0].uri]. *)
Inductive PickResult : Type :=
| Canceled
| Assets (uri : string).

(** The file system as the module sees it: the app's document directory
    ([null] on platforms without one) and the files by path, each with its
    content. *)
Record Files : Type := {
  documentDirectory : option string;
  files : gmap string string
}.

(** The module variable [_dbInstance] and the handles of the database
    engine: a handle is the number of handles opened before it; [closed]
    lists the handles on which [closeAsync] was called. *)
Record Connection : Type := {
  _dbInstance : option nat;
  opened : nat;
  closed : list nat
}.

(** [`${documentDirectory}SQLite/`] and [`${dbDir}${DB_NAME}`]. *)
Definition dbDir (dir : string) : string := dir ++ "SQLite/".
Definition dbPath (dir : string) : string := dbDir dir ++ DB_NAME.

Definition checkDatabaseExists (fs : Files) : bool :=
  if negb (Js.truthy_str (documentDirectory fs)) then false
  else bool_decide (is_Some (files fs !! dbPath (default "" (documentDirectory fs)))).

Definition closeDatabaseConnection (c : Connection) : Connection :=
  match _dbInstance c with
  | Some h => {| _dbInstance := None; opened := opened c; closed := h :: closed c |}
  | None => c
  end.

Definition getDb (c : Connection) : nat * Connection :=
  match _dbInstance c with
  | Some h => (h, c)
  | None =>
      (opened c,
       {| _dbInstance := Some (opened c);
          opened := S (opened c);
          closed := closed c |})
  end.

(** [copyAsync({from, to})]: the copy of a file that is there. *)
Definition copyAsync (from to : string) (fs : Files) : result Files :=
  match files fs !! from with
  | Some content =>
      Ok {| documentDirectory := documentDirectory fs;
            files := <[to := content]> (files fs) |}
  | None => Throw ("File '" ++ from ++ "' could not be copied")
  end.

(** [importDatabase()], the user answering the picker with [choice]. *)
Definition importDatabase (choice : PickResult) (fs : Files) (c : Connection)
  : result bool * Files * Connection :=
  if negb (Js.truthy_str (documentDirectory fs))
  then (Throw "Document directory not available", fs, c)
  else
    match choice with
    | Canceled => (Ok false, fs, c)
    | Assets uri =>
        let c' := closeDatabaseConnection c in
        match copyAsync uri (dbPath (default "" (documentDirectory fs))) fs with
        | Ok fs' => (Ok true, fs', c')
        | Throw e => (Throw e, fs, c')
        end
    end.

Definition initDatabase (fs : Files) : result unit :=
  if negb (checkDatabaseExists fs) then Throw "DATABASE_MISSING" else Ok tt.

(** No handle in use or handed out later is a closed one. *)
Definition consistent (c : Connection) : Prop :=
  (∀ h, _dbInstance c = Some h → (h ∉ closed c) ∧ (h < opened c)%nat) ∧
  (∀ h, h ∈ closed c → (h < opened c)%nat).

End Device.

(** ** More of the Content Store's callers *)

Module Queries.
Import Database.

Definition withPage (page : option Z) (p : Params.t) : Params.t :=
  Params.mk page (Params.limit p) (Params.search p)
            (Params.title p) (Params.author p) (Params.random p) (Params.ids p).

Definition withSearch (search : option string) (p : Params.t) : Params.t :=
  Params.mk (Params.page p) (Params.limit p) search
            (Params.title p) (Params.author p) (Params.random p) (Params.ids p).

Definition withRandom (random : option bool) (p : Params.t) : Params.t :=
  Params.mk (Params.page p) (Params.limit p) (Params.search p)
            (Params.title p) (Params.author p) random (Params.ids p).

(** The rows of [books] that the conditions of [params] select. *)
Definition matching (db : Tables) (params : Params.t) : list BookRow.t :=
  filter (fun r => whereClause (conditions params) r = true) (books db).

(** The books of page [k] of a query. *)
Definition pageData (db : Tables) (params : Params.t) (k : Z) : list Book.t :=
  match getAllBooks (Opened db) (withPage (Some k) params) with
  | Ok r => data r
  | Throw _ => []
  end.

(** The pages [1 .. n] of a query, one after the other. *)
Definition pagesUpTo (db : Tables) (params : Params.t) (n : nat) : list Book.t :=
  concat (map (fun k => pageData db params (Z.of_nat k)) (seq 1 n)).

(** A query with a [search] term and nothing else. *)
Definition searchQuery (s : string) : Params.t :=
  Params.mk None None (Some s) None None None None.

(** The string with its ASCII letters in lower case. *)
Fixpoint lowerString (s : string) : string :=
  match s with
  | EmptyString => EmptyString
  | String c s' => String (Sql.lower c) (lowerString s')
  end.

(** No character of the string is a [LIKE] wildcard. *)
Fixpoint noWildcard (s : string) : bool :=
  match s with
  | EmptyString => true
  | String c s' =>
      negb (Ascii.eqb c "%") && negb (Ascii.eqb c "_") && noWildcard s'
  end.

(** [s] occurs in [t], ASCII letters compared without regard to case. *)
Definition occursIn (s t : string) : Prop :=
  ∃ pre mid post, t = pre ++ mid ++ post ∧ lowerString mid = lowerString s.

(** The number of books of an author. *)
Definition booksBy (a : string) (rows : list BookRow.t) : Z :=
  Z.of_nat (length (filter (fun r => BookRow.author r = a) rows)).

Definition sumCounts (groups : list Author.t) : Z :=
  foldr (fun g n => Author.book_count g + n) 0 groups.

(** The groups [groups] are those of the rows [rows]: one group per
    author of a row, with the number of the author's rows. *)
Definition grouped (groups : list Author.t) (rows : list BookRow.t) : Prop :=
  NoDup (map Author.author groups) ∧
  (∀ g, g ∈ groups →
        Author.book_count g = booksBy (Author.author g) rows ∧
        0 < Author.book_count g) ∧
  (∀ a, a ∈ map Author.author groups ↔
        ∃ r, r ∈ rows ∧ BookRow.author r = a) ∧
  sumCounts groups = Z.of_nat (length rows).

End Queries.

(** ** More of the application component ([App.tsx]) *)

Module Flow.
Import App.

(** The initialization effect (lines 71-87). *)
Definition init (fs : Device.Files) (w : World) : M unit :=
  tryCatch
    (if negb (Device.checkDatabaseExists fs) then
       set (setDbMissing true) ;;;
       set (setLoadingState idle)
     else runFullInit w)
    (fun err => ret tt).

(** The persist effect (lines 126-132): what the storage holds after it. *)
Definition persist (st : AppState) (s : AsyncStorage) : AsyncStorage :=
  if dbReady st then
    {| reader_settings_item := Some (settings st);
       favorites_item := Some (favorites st);
       bookmarks_item := Some (bookmarks st) |}
  else s.

Definition withStorage (s : AsyncStorage) (w : World) : World :=
  {| storeAt := storeAt w; storage := s |}.

(** The sub-views ['books'] and ['authors'] of the library. *)
Inductive LibrarySubView : Type := books_sub | authors_sub.

(** Is the pagination bar rendered (line 441)? *)
Definition paginationShown (st : AppState) (sub : LibrarySubView) : bool :=
  (1 <? totalPages st)
  && (negb (view_eqb (currentView st) all_books)
      || match sub with books_sub => true | authors_sub => false end).

(** The two buttons of the pagination bar; a disabled button does
    nothing. *)
Definition pressPrevPage (st : AppState) : AppState :=
  if currentPage st =? 1 then st
  else setCurrentPage (currentPage st - 1) st.

Definition pressNextPage (st : AppState) : AppState :=
  if currentPage st =? totalPages st then st
  else setCurrentPage (currentPage st + 1) st.

(** The authors of the home view (line 314). *)
Definition topAuthors (l : list Database.Author.t) : list Database.Author.t :=
  take 10 (filter (fun a => Database.Author.author a ≠ "Unknown") l).

(** The reader's Prev and Next buttons ([Reader.tsx], lines 166-189),
    [onNavigate] being [setCurrentChapterIdx]. *)
Definition pressPrevChapter (st : AppState) : AppState :=
  if 0 <? currentChapterIdx st
  then setCurrentChapterIdx (currentChapterIdx st - 1) st
  else st.

Definition pressNextChapter (st : AppState) : AppState :=
  if currentChapterIdx st <? Z.of_nat (length (chapters st)) - 1
  then setCurrentChapterIdx (currentChapterIdx st + 1) st
  else st.

(** What the reader of a state shows, the fonts being loaded. *)
Definition readerView (st : AppState) : option Reader.View :=
  match render true st with
  | ReaderScreen props => Some (Reader.Reader props)
  | _ => None
  end.

End Flow.

(** ** The book card ([components/BookCard.tsx]) *)

Module BookCard.

(** Is the title laid over the cover (line 34)? *)
Definition showsTitleOverlay (book : Database.Book.t) : bool :=
  Js.includes (Database.Book.cover_url book) "picsum.photos".

(** The [isFavorite] property the library hands to the card. *)
Definition isFavorite (favorites : list Z) (book : Database.Book.t) : bool :=
  bool_decide (Database.Book.book_id book ∈ favorites).

End BookCard.

(** ** More concrete data *)

Module MoreExamples.
Import Database.

Definition phone : Device.Files :=
  {| Device.documentDirectory := Some "file:///data/";
     Device.files := {[ "file:///cache/picked.db" := "SQLite format 3" ]} |}.

(** The phone with a database file in place. *)
Definition phoneWithDatabase : Device.Files :=
  {| Device.documentDirectory := Some "file:///data/";
     Device.files := {[ Device.dbPath "file:///data/" := "SQLite format 3" ]} |}.

(** A platform without document directory. *)
Definition noDirectory : Device.Files :=
  {| Device.documentDirectory := None; Device.files := ∅ |}.

Definition noConnection : Device.Connection :=
  {| Device._dbInstance := None; Device.opened := 0; Device.closed := [] |}.

Definition openConnection : Device.Connection :=
  {| Device._dbInstance := Some 0%nat; Device.opened := 1; Device.closed := [] |}.

Definition stored : App.AsyncStorage :=
  {| App.reader_settings_item := None;
     App.favorites_item := Some [1; 3];
     App.bookmarks_item := Some {[ 1 := 4 ]} |}.

(** Three favourites on the ready library. *)
Definition withFavorites : App.AppState :=
  App.setFavorites [1; 3] Examples.ready.


(** Page 2 of 3. *)
Definition secondOfThree : App.AppState :=
  App.setCurrentPage 2 (App.setTotalPages 3 Examples.ready).

(** The reader on the second of ten chapters. *)
Definition readingSecond : App.AppState :=
  App.setCurrentChapterIdx 1
    (App.setChapters (map toChapter (chapterRows Examples.tenChapters 1))
       (App.setSelectedBook (Some Examples.gitanjali) Examples.ready)).

End MoreExamples.

(** * Properties *)

(** ** Favourites and bookmarks *)

Section Toggles.
Import App.

Lemma favorites_setFavorites (v : list Z) (st : AppState) :
  favorites (setFavorites v st) = v.
Proof. reflexivity. Qed.

Lemma bookmarks_setBookmarks (v : gmap Z Z) (st : AppState) :
  bookmarks (setBookmarks v st) = v.
Proof. reflexivity. Qed.

(** Membership after one application of the updater. *)
Lemma toggleFavoriteUpdate_elem (b x : Z) (prev : list Z) :
  x ∈ toggleFavoriteUpdate b prev ↔
  if decide (x = b) then b ∉ prev else x ∈ prev.
Proof.
  unfold toggleFavoriteUpdate.
  destruct (decide (b ∈ prev)) as [Hin | Hout].
  - rewrite list_elem_of_filter.
    destruct (decide (x = b)) as [-> | Hne]; tauto.
  - rewrite elem_of_app, list_elem_of_singleton.
    destruct (decide (x = b)) as [-> | Hne]; tauto.
Qed.

(** The entry of [b'] after one application of the updater. *)
Lemma toggleBookmarkUpdate_lookup (b i b' : Z) (prev : gmap Z Z) :
  toggleBookmarkUpdate b i prev !! b' =
  if decide (b' = b)
  then (if decide (prev !! b = Some i) then None else Some i)
  else prev !! b'.
Proof.
  unfold toggleBookmarkUpdate.
  destruct (decide (b' = b)) as [-> | Hne].
  - destruct (decide (prev !! b = Some i)).
    + apply lookup_delete_eq.
    + apply lookup_insert_eq.
  - destruct (decide (prev !! b = Some i)).
    + by apply lookup_delete_ne.
    + by apply lookup_insert_ne.
Qed.

(** C6.  One [toggleFavorite b] adds [b] to the favourites if it is absent
    and removes it if it is present, and two of them in a row restore the
    membership of [b] the favourites started with. *)
Theorem toggleFavorite_twice_restores_membership (b : Z) (st : AppState) :
  (b ∈ favorites (toggleFavorite b st) ↔ b ∉ favorites st) ∧
  (b ∈ favorites (toggleFavorite b (toggleFavorite b st)) ↔ b ∈ favorites st).
Proof.
  assert (Hflip : ∀ l : list Z, b ∈ toggleFavoriteUpdate b l ↔ b ∉ l).
  { intros l. rewrite toggleFavoriteUpdate_elem.
    rewrite decide_True by reflexivity. reflexivity. }
  unfold toggleFavorite. rewrite !favorites_setFavorites.
  split; [apply Hflip |].
  rewrite !Hflip.
  destruct (decide (b ∈ favorites st)); tauto.
Qed.

(** C5 (amended).  One [toggleBookmark b i] clears the bookmark of [b] when
    it is [i] and sets it to [i] otherwise; so two of them in a row leave
    no bookmark for [b] unless [b] was bookmarked at [i] to begin with, in
    which case that bookmark is back.  The bookmarks map never holds two
    entries for one book id. *)
Theorem toggleBookmark_twice (b i : Z) (st : AppState) :
  bookmarks (toggleBookmark b i st) !! b =
    (if decide (bookmarks st !! b = Some i) then None else Some i) ∧
  bookmarks (toggleBookmark b i (toggleBookmark b i st)) !! b =
    (if decide (bookmarks st !! b = Some i) then Some i else None) ∧
  NoDup (bookmarkKeys (bookmarks (toggleBookmark b i st))).
Proof.
  assert (Hflip : ∀ m : gmap Z Z,
             toggleBookmarkUpdate b i m !! b =
             if decide (m !! b = Some i) then None else Some i).
  { intros m. rewrite toggleBookmarkUpdate_lookup.
    rewrite decide_True by reflexivity. reflexivity. }
  unfold toggleBookmark. rewrite !bookmarks_setBookmarks.
  split; [apply Hflip |]. split.
  - rewrite !Hflip.
    destruct (decide (bookmarks st !! b = Some i)) as [Heq | Hne].
    + rewrite decide_False by discriminate. reflexivity.
    + rewrite decide_True by reflexivity. reflexivity.
  - apply NoDup_fst_map_to_list.
Qed.

(** C5 as stated fails: with book 1 bookmarked at chapter index 4, two
    [toggleBookmark 1 4] in a row leave book 1 bookmarked. *)
Lemma toggleBookmark_twice_keeps_bookmark :
  bookmarks Examples.markedAtFour !! 1 = Some 4 ∧
  bookmarks (toggleBookmark 1 4 (toggleBookmark 1 4 Examples.markedAtFour)) !! 1
    ≠ None.
Proof.
  split; [reflexivity |].
  vm_compute. discriminate.
Qed.

(** C10.  [toggleBookmark b i] leaves the bookmark of every other book as
    it was, and [toggleFavorite b] leaves the membership of every other id
    in the favourites as it was. *)
Theorem toggle_frame (b b' i : Z) (st : AppState) :
  b' ≠ b →
  bookmarks (toggleBookmark b i st) !! b' = bookmarks st !! b' ∧
  (b' ∈ favorites (toggleFavorite b st) ↔ b' ∈ favorites st).
Proof.
  intros Hne. unfold toggleBookmark, toggleFavorite.
  rewrite bookmarks_setBookmarks, favorites_setFavorites.
  rewrite toggleBookmarkUpdate_lookup, toggleFavoriteUpdate_elem.
  rewrite !decide_False by assumption.
  split; reflexivity.
Qed.

Lemma toggle_frame_witness :
  (2 : Z) ≠ 1 ∧
  (bookmarks (toggleBookmark 1 4 Examples.markedAtFour) !! 2
     = bookmarks Examples.markedAtFour !! 2 ∧
   (2 ∈ favorites (toggleFavorite 1 Examples.markedAtFour)
      ↔ 2 ∈ favorites Examples.markedAtFour)).
Proof.
  split; [lia | apply (toggle_frame 1 2 4 Examples.markedAtFour); lia].
Defined.

(** Neither toggle touches the other preference. *)
Lemma toggle_other_preference (b i : Z) (st : AppState) :
  favorites (toggleBookmark b i st) = favorites st ∧
  bookmarks (toggleFavorite b st) = bookmarks st.
Proof. split; reflexivity. Qed.

End Toggles.

(** ** The SQL fragment *)

Section SqlFacts.
Context {A : Type} (key : A → Z).

Lemma insert_by_perm (x : A) (l : list A) :
  Sql.insert_by key x l ≡ₚ x :: l.
Proof.
  induction l as [| y l IH]; simpl; [reflexivity |].
  destruct (key x <=? key y); [reflexivity |].
  rewrite IH. apply perm_swap.
Qed.

Lemma order_by_perm (l : list A) : Sql.order_by key l ≡ₚ l.
Proof.
  induction l as [| x l IH]; simpl; [reflexivity |].
  rewrite insert_by_perm. by rewrite IH.
Qed.

Lemma order_by_length (l : list A) :
  length (Sql.order_by key l) = length l.
Proof. apply Permutation_length, order_by_perm. Qed.

Lemma insert_by_HdRel (a : Z) (x : A) (l : list A) :
  a <= key x →
  HdRel Z.le a (map key l) →
  HdRel Z.le a (map key (Sql.insert_by key x l)).
Proof.
  intros Hax Hhd. destruct l as [| y l]; simpl.
  - by constructor.
  - destruct (key x <=? key y); simpl.
    + by constructor.
    + constructor. by inversion Hhd.
Qed.

Lemma insert_by_Sorted (x : A) (l : list A) :
  Sorted Z.le (map key l) →
  Sorted Z.le (map key (Sql.insert_by key x l)).
Proof.
  induction l as [| y l IH]; simpl; intros Hs.
  - repeat constructor.
  - destruct (key x <=? key y) eqn:Hxy; simpl.
    + constructor; [assumption |]. constructor. lia.
    + inversion Hs as [| ? ? Hs' Hhd]; subst.
      constructor; [by apply IH |].
      apply insert_by_HdRel; [lia | assumption].
Qed.

(** [ORDER BY key ASC] yields keys in ascending order. *)
Lemma order_by_Sorted (l : list A) :
  Sorted Z.le (map key (Sql.order_by key l)).
Proof.
  induction l as [| x l IH]; simpl; [constructor |].
  by apply insert_by_Sorted.
Qed.

Lemma limit_offset_length (lim off : Z) (l : list A) :
  0 <= lim →
  Z.of_nat (length (Sql.limit_offset lim off l)) <= lim.
Proof.
  intros Hlim. unfold Sql.limit_offset.
  destruct (lim <? 0) eqn:Hneg; [lia |].
  rewrite length_take. lia.
Qed.

End SqlFacts.

Lemma order_by_random_length {A : Type} (rnd : nat → Z) (l : list A) :
  length (Sql.order_by_random rnd l) = length l.
Proof.
  unfold Sql.order_by_random.
  by rewrite length_fmap, order_by_length, length_imap.
Qed.

(** An ascending list without repetition ascends strictly, and a strictly
    ascending list has no repetition. *)
Lemma Sorted_le_NoDup_lt (l : list Z) :
  Sorted Z.le l → NoDup l → Sorted Z.lt l.
Proof.
  induction 1 as [| a l Hs IH Hhd]; intros Hnd; [constructor |].
  apply NoDup_cons in Hnd as [Hnotin Hnd].
  constructor; [by apply IH |].
  destruct Hhd as [| b l' Hab]; constructor.
  assert (a ≠ b) by (intros ->; apply Hnotin; left).
  lia.
Qed.

Lemma Sorted_lt_NoDup (l : list Z) : Sorted Z.lt l → NoDup l.
Proof.
  intros Hs. apply Sorted_StronglySorted in Hs; [| intros x y z; lia].
  induction Hs as [| a l Hs IH Hall]; [constructor |].
  apply NoDup_cons. split; [| assumption].
  intros Hin. rewrite Forall_forall in Hall.
  specialize (Hall a Hin). lia.
Qed.

(** [Math.ceil(a / b)] is the least [q] with [a <= q * b], for [b > 0]. *)
Lemma ceil_div_spec (a b : Z) :
  0 < b →
  (Js.ceil_div a b - 1) * b < a <= Js.ceil_div a b * b.
Proof.
  intros Hb. unfold Js.ceil_div.
  pose proof (Z.mul_div_le (- a) b Hb).
  pose proof (Z.mul_succ_div_gt (- a) b Hb).
  lia.
Qed.

(** ** The Content Store *)

Section StoreFacts.
Import Database.

Lemma conditions_withIds_empty (params : Params.t) :
  conditions (Examples.withIds (Some []) params)
  = conditions (Examples.withIds None params).
Proof. reflexivity. Qed.

(** With an empty [ids] the query is the one without [ids]. *)
Lemma getAllBooks_empty_ids_no_filter (st : Store) (params : Params.t) :
  getAllBooks st (Examples.withIds (Some []) params)
  = getAllBooks st (Examples.withIds None params).
Proof. reflexivity. Qed.

(** C1 as stated fails: on a library of one book, [getAllBooks] with
    [ids = []] and no other filter returns that book and [total = 1]. *)
Lemma getAllBooks_empty_ids_returns_books :
  ∃ r, getAllBooks (Opened Examples.oneBook)
         (Examples.query None None (Some [])) = Ok r ∧
       data r = [Examples.gitanjali] ∧
       total (pagination r) = 1 ∧
       ¬ (data r = [] ∧ total (pagination r) = 0).
Proof.
  eexists. split; [reflexivity |].
  split; [reflexivity |]. split; [reflexivity |].
  intros [Hdata _]. discriminate Hdata.
Qed.




(** Twenty-five books in pages of twenty: twenty on the first page, five on
    the second, two pages. *)
Example getAllBooks_25_by_20 :
  ∃ r1 r2,
    getAllBooks (Opened Examples.library25)
      (Examples.query (Some 1) (Some 20) None) = Ok r1 ∧
    getAllBooks (Opened Examples.library25)
      (Examples.query (Some 2) (Some 20) None) = Ok r2 ∧
    length (data r1) = 20%nat ∧ totalPages (pagination r1) = 2 ∧
    length (data r2) = 5%nat.
Proof. do 2 eexists. repeat split; reflexivity. Qed.

Lemma toChapter_numbers (rows : list ChapterRow.t) :
  map Chapter.chapter_number (map toChapter rows)
  = map ChapterRow.chapter_number rows.
Proof. rewrite map_map. reflexivity. Qed.

(** C3 as stated fails: book 7 is not in the [books] table, and the call
    returns the empty list instead of failing. *)
Lemma getChaptersByBookId_missing_book_no_error :
  (7 ∉ map BookRow.book_id (books Examples.oneBook)) ∧
  getChaptersByBookId (Opened Examples.oneBook) 7 = Ok [] ∧
  ¬ (∃ msg, getChaptersByBookId (Opened Examples.oneBook) 7 = Throw msg).
Proof.
  split; [| split].
  - simpl. rewrite list_elem_of_singleton. lia.
  - reflexivity.
  - intros [msg Hmsg]. discriminate Hmsg.
Qed.

(** C3 (amended).  On a store that answers, [getChaptersByBookId] returns a
    list for every [bookId], never an error: the [books] table plays no
    part in it.  The list is empty exactly when no row of [chapters]
    carries that [bookId], be the book missing or without chapters.  The
    call fails only with the error of a store that does not answer. *)
Theorem getChaptersByBookId_never_not_found (db : Tables) (bookId : Z) :
  ∃ cs, getChaptersByBookId (Opened db) bookId = Ok cs ∧
        (cs = [] ↔
         filter (λ r, ChapterRow.book_id r = bookId) (chapters db) = []) ∧
        (∀ books' : list BookRow.t,
           getChaptersByBookId
             (Opened {| books := books';
                        chapters := chapters db;
                        random := random db |}) bookId = Ok cs) ∧
        (∀ st msg,
           getChaptersByBookId st bookId = Throw msg ↔ st = Unavailable msg).
Proof.
  eexists. split; [reflexivity |]. split; [| split].
  - unfold chapterRows.
    set (rows := filter _ (chapters db)).
    split; intros Hnil.
    + apply (f_equal length) in Hnil.
      rewrite length_map, order_by_length in Hnil.
      by apply length_zero_iff_nil.
    + by rewrite Hnil.
  - reflexivity.
  - intros [db' | msg'] msg; simpl; split; intros Heq;
      try discriminate; congruence.
Qed.

(** C7 as stated fails: two chapters of a book with the same
    [chapter_number] come back next to each other, the second not
    strictly greater than the first. *)
Lemma getChaptersByBookId_not_strict :
  ∃ cs, getChaptersByBookId (Opened Examples.repeatedNumber) 1 = Ok cs ∧
        map Chapter.chapter_number cs = [1; 1] ∧
        ¬ Sorted Z.lt (map Chapter.chapter_number cs).
Proof.
  eexists. split; [reflexivity |]. split; [reflexivity |].
  simpl. intros Hs.
  inversion Hs as [| ? ? _ Hhd]; subst.
  inversion Hhd; subst. lia.
Qed.

(** C7 (amended).  The chapters [getChaptersByBookId] returns ascend by
    [chapter_number]: each number is at least its predecessor's.  They
    ascend strictly exactly when no two chapter rows of the book carry the
    same [chapter_number]. *)
Theorem getChaptersByBookId_sorted (db : Tables) (bookId : Z) :
  ∃ cs, getChaptersByBookId (Opened db) bookId = Ok cs ∧
        Sorted Z.le (map Chapter.chapter_number cs) ∧
        (Sorted Z.lt (map Chapter.chapter_number cs) ↔
         NoDup (map ChapterRow.chapter_number
                  (filter (λ r, ChapterRow.book_id r = bookId) (chapters db)))).
Proof.
  eexists. split; [reflexivity |].
  rewrite toChapter_numbers. unfold chapterRows.
  set (rows := filter _ (chapters db)).
  pose proof (order_by_Sorted ChapterRow.chapter_number rows) as Hle.
  pose proof (Permutation_map ChapterRow.chapter_number
                (order_by_perm ChapterRow.chapter_number rows)) as Hperm.
  split; [exact Hle |]. split.
  - intros Hlt. rewrite <- Hperm. by apply Sorted_lt_NoDup.
  - intros Hnd. apply Sorted_le_NoDup_lt; [exact Hle |]. by rewrite Hperm.
Qed.

End StoreFacts.

(** ** The reader screen *)

Section ReaderFacts.
Import Reader.

(** [arr[i]] is [undefined] exactly outside [0 .. length - 1]. *)
Lemma index_None {A : Type} (arr : list A) (i : Z) :
  Js.index arr i = None ↔ ¬ (0 <= i <= Z.of_nat (length arr) - 1).
Proof.
  unfold Js.index.
  destruct (0 <=? i) eqn:Hlo; destruct (i <? Z.of_nat (length arr)) eqn:Hhi;
    simpl; try (split; [intros _; lia | reflexivity]).
  rewrite nth_error_None. lia.
Qed.

(** C9 as stated fails: with no chapters and [isLoading] set, the index 0
    is out of range and the reader shows the loading screen, not the
    'No Content Available' one. *)
Lemma Reader_loading_out_of_range :
  ¬ (0 <= currentChapterIndex (Examples.emptyReader (Some true))
       <= Z.of_nat (length (chapters (Examples.emptyReader (Some true)))) - 1) ∧
  Reader (Examples.emptyReader (Some true)) = LoadingChapter ∧
  Reader (Examples.emptyReader (Some true))
    ≠ NoContentAvailable
        (Database.Book.title (book (Examples.emptyReader (Some true)))).
Proof.
  split; [simpl; lia |]. split; [reflexivity | discriminate].
Qed.

(** C9 (amended).  [chapters[currentChapterIndex]] is no chapter exactly
    when the index lies outside [0 .. chapters.length - 1] (so always for
    an empty list).  Then the reader shows the loading screen if
    [isLoading] is set and the 'No Content Available' screen otherwise; it
    shows a chapter only if there is one at the index. *)
Theorem Reader_total (props : ReaderProps) :
  (Js.index (chapters props) (currentChapterIndex props) = None ↔
   ¬ (0 <= currentChapterIndex props
        <= Z.of_nat (length (chapters props)) - 1)) ∧
  (¬ (0 <= currentChapterIndex props
        <= Z.of_nat (length (chapters props)) - 1) →
   Reader props =
     if Js.truthy_bool (isLoading props) then LoadingChapter
     else NoContentAvailable (Database.Book.title (book props))) ∧
  (∀ c hasPrev hasNext bookmarked,
     Reader props = ChapterContent c hasPrev hasNext bookmarked →
     Js.index (chapters props) (currentChapterIndex props) = Some c ∧
     0 <= currentChapterIndex props
       <= Z.of_nat (length (chapters props)) - 1).
Proof.
  split; [apply index_None |]. split.
  - intros Hout. apply index_None in Hout.
    unfold Reader. rewrite Hout. reflexivity.
  - intros c hasPrev hasNext bookmarked. unfold Reader.
    destruct (Js.truthy_bool (isLoading props)); [discriminate |].
    destruct (Js.index (chapters props) (currentChapterIndex props))
      as [c' |] eqn:Hidx; [| discriminate].
    intros [= -> _ _ _]. split; [reflexivity |].
    destruct (decide (0 <= currentChapterIndex props
                        <= Z.of_nat (length (chapters props)) - 1))
      as [Hin | Hout]; [exact Hin |].
    apply index_None in Hout. congruence.
Qed.

Lemma Reader_total_witness :
  (¬ (0 <= currentChapterIndex (Examples.emptyReader None)
        <= Z.of_nat (length (chapters (Examples.emptyReader None))) - 1) ∧
   Reader (Examples.emptyReader None) = NoContentAvailable "Gitanjali") ∧
  (Reader (Examples.twoChapterReader 1)
     = ChapterContent (Database.toChapter (Examples.chapter 11 1 2))
         true false false ∧
   Js.index (chapters (Examples.twoChapterReader 1))
            (currentChapterIndex (Examples.twoChapterReader 1))
     = Some (Database.toChapter (Examples.chapter 11 1 2))).
Proof.
  assert (Hout : ¬ (0 <= currentChapterIndex (Examples.emptyReader None)
                      <= Z.of_nat (length (chapters (Examples.emptyReader None))) - 1))
    by (simpl; lia).
  split; split.
  - exact Hout.
  - exact (proj1 (proj2 (Reader_total (Examples.emptyReader None))) Hout).
  - reflexivity.
  - exact (proj1 (proj2 (proj2 (Reader_total (Examples.twoChapterReader 1)))
                    _ _ _ _ eq_refl)).
Defined.

End ReaderFacts.

(** ** The library controller and the book selection *)

Section ControllerFacts.
Import Database App.

(** The fetch ends without a query exactly in the favourites view without
    favourites and in the bookmarks view without bookmarks. *)
Lemma emptyIdView_true (c : AppState) :
  emptyIdView c = true ↔
  (currentView c = favorites_view ∧ favorites c = []) ∨
  (currentView c = bookmarks_view ∧ bookmarks c = ∅).
Proof.
  unfold emptyIdView, bookmarkKeys.
  rewrite orb_true_iff, !andb_true_iff, !Nat.eqb_eq.
  rewrite length_fmap, !length_zero_iff_nil, map_to_list_empty_iff.
  destruct (currentView c); simpl; intuition congruence.
Qed.

(** C1 (amended).  [getAllBooks] with an empty [ids] puts no constraint on
    the id: it answers as the same call without [ids].  The empty result
    for an empty id set is the controller's: in the favourites view without
    favourites and in the bookmarks view without bookmarks, the fetch sets
    the books to none, the page count to 1 and the state to [success], and
    calls no store function. *)
Theorem empty_id_set
  (st : Store) (params : Params.t) (w : World) (c : AppState) (m : Machine) :
  getAllBooks st (Examples.withIds (Some []) params)
    = getAllBooks st (Examples.withIds None params) ∧
  ((currentView c = favorites_view ∧ favorites c = []) ∨
   (currentView c = bookmarks_view ∧ bookmarks c = ∅) →
   fst (fetchBooksTimer w c m) = Ok tt ∧
   books (app (snd (fetchBooksTimer w c m))) = [] ∧
   totalPages (app (snd (fetchBooksTimer w c m))) = 1 ∧
   loadingState (app (snd (fetchBooksTimer w c m))) = success ∧
   trace (snd (fetchBooksTimer w c m)) = trace m ∧
   calls (snd (fetchBooksTimer w c m)) = calls m).
Proof.
  split; [reflexivity |].
  intros Hempty. apply emptyIdView_true in Hempty.
  unfold fetchBooksTimer. rewrite Hempty.
  repeat split.
Qed.

Lemma empty_id_set_witness :
  getAllBooks (Opened Examples.oneBook)
    (Examples.withIds (Some []) (Examples.query None None None))
  = getAllBooks (Opened Examples.oneBook)
      (Examples.withIds None (Examples.query None None None)) ∧
  books (app (snd (fetchBooksTimer (Examples.steady Examples.library25)
                     (setCurrentView favorites_view Examples.ready)
                     (start Examples.ready)))) = [] ∧
  trace (snd (fetchBooksTimer (Examples.steady Examples.library25)
                (setCurrentView favorites_view Examples.ready)
                (start Examples.ready))) = [].
Proof.
  pose proof (empty_id_set (Opened Examples.oneBook)
                (Examples.query None None None)
                (Examples.steady Examples.library25)
                (setCurrentView favorites_view Examples.ready)
                (start Examples.ready)) as [Hstore Hfetch].
  destruct Hfetch as (_ & Hbooks & _ & _ & Htrace & _).
  { left. split; reflexivity. }
  split; [exact Hstore |]. split; [exact Hbooks | exact Htrace].
Defined.

(** The calls of a full re-initialization and its outcome. *)
Lemma runFullInit_run (w : World) (m : Machine) :
  trace (snd (runFullInit w m))
    = (trace m ++ [CallRunFullInit; CallGetAllAuthors])%list ∧
  calls (snd (runFullInit w m)) = S (calls m) ∧
  match getAllAuthors (storeAt w (calls m)) with
  | Ok _ => fst (runFullInit w m) = Ok tt
  | Throw e =>
      fst (runFullInit w m) = Throw e ∧
      loadingState (app (snd (runFullInit w m))) = loading
  end.
Proof.
  unfold runFullInit, bind, note, set, whenSome, callStore, ret.
  destruct (reader_settings_item (storage w));
    destruct (favorites_item (storage w));
    destruct (bookmarks_item (storage w)); simpl;
    destruct (getAllAuthors (storeAt w (calls m))); simpl;
    rewrite <- app_assoc; repeat split.
Qed.

(** C2 as stated fails: the connection is closed when the query is made and
    open again afterwards, so that the query would succeed if it were made
    again; the fetch re-initializes once, makes no second query and ends in
    the [error] state. *)
Lemma fetch_does_not_retry :
  connectionIssue "Error: database is closed" = true ∧
  trace (snd (fetchBooksTimer Examples.closedOnce Examples.ready
                (start Examples.ready)))
    = [CallGetAllBooks (fetchParams Examples.ready);
       CallRunFullInit; CallGetAllAuthors] ∧
  loadingState (app (snd (fetchBooksTimer Examples.closedOnce Examples.ready
                            (start Examples.ready)))) = error ∧
  ∃ response,
    getAllBooks
      (storeAt Examples.closedOnce
         (calls (snd (fetchBooksTimer Examples.closedOnce Examples.ready
                        (start Examples.ready)))))
      (fetchParams Examples.ready) = Ok response.
Proof.
  split; [reflexivity |]. split; [reflexivity |]. split; [reflexivity |].
  eexists. reflexivity.
Qed.

(** C2 (amended).  When the query of a fetch throws an error whose message
    contains 'no such table' or 'database is closed', the fetch runs the
    full re-initialization exactly once and makes no second query: its
    calls are the query, the re-initialization and the latter's reading of
    the authors.  When the re-initialization completes the request ends in
    the [error] state, whatever a second query would have returned. *)
Theorem fetch_connection_issue
  (w : World) (c : AppState) (m : Machine) (msg : string) :
  emptyIdView c = false →
  getAllBooks (storeAt w (calls m)) (fetchParams c) = Throw msg →
  connectionIssue msg = true →
  trace (snd (fetchBooksTimer w c m))
    = (trace m ++ [CallGetAllBooks (fetchParams c);
                   CallRunFullInit; CallGetAllAuthors])%list ∧
  count_event isRunFullInit
    [CallGetAllBooks (fetchParams c); CallRunFullInit; CallGetAllAuthors]
    = 1%nat ∧
  count_event isGetAllBooks
    [CallGetAllBooks (fetchParams c); CallRunFullInit; CallGetAllAuthors]
    = 1%nat ∧
  match getAllAuthors (storeAt w (S (calls m))) with
  | Ok _ =>
      fst (fetchBooksTimer w c m) = Ok tt ∧
      loadingState (app (snd (fetchBooksTimer w c m))) = error
  | Throw e =>
      fst (fetchBooksTimer w c m) = Throw e ∧
      loadingState (app (snd (fetchBooksTimer w c m))) = loading
  end.
Proof.
  intros Hview Hthrow Hissue.
  set (m1 := {| app := app m; calls := S (calls m);
                trace := (trace m ++ [CallGetAllBooks (fetchParams c)])%list |}).
  assert (Hrun : fetchBooksTimer w c m
                 = (runFullInit w ;;; set (setLoadingState error)) m1).
  { unfold fetchBooksTimer, tryCatch. rewrite Hview.
    unfold bind at 1, callStore at 1. rewrite Hthrow.
    rewrite Hissue. reflexivity. }
  assert (Hbind : (runFullInit w ;;; set (setLoadingState error)) m1
                  = match runFullInit w m1 with
                    | (Ok _, m2) => set (setLoadingState error) m2
                    | (Throw e, m2) => (Throw e, m2)
                    end) by reflexivity.
  rewrite Hrun, Hbind. clear Hrun Hbind.
  pose proof (runFullInit_run w m1) as (Htrace & Hcalls & Hout).
  simpl in Htrace, Hout. rewrite <- app_assoc in Htrace.
  split; [| do 2 (split; [reflexivity |])].
  - destruct (runFullInit w m1) as [[[] | e] m2]; exact Htrace.
  - destruct (getAllAuthors (storeAt w (S (calls m)))) as [a | e'].
    + destruct (runFullInit w m1) as [[[] | e] m2]; [| discriminate Hout].
      split; reflexivity.
    + destruct Hout as [Hthrown Hloading].
      destruct (runFullInit w m1) as [[[] | e] m2]; [discriminate Hthrown |].
      simpl in Hthrown. injection Hthrown as ->.
      split; [reflexivity | exact Hloading].
Qed.

Lemma fetch_connection_issue_witness :
  trace (snd (fetchBooksTimer Examples.closedOnce Examples.ready
                (start Examples.ready)))
    = [CallGetAllBooks (fetchParams Examples.ready);
       CallRunFullInit; CallGetAllAuthors] ∧
  fst (fetchBooksTimer Examples.closedOnce Examples.ready
         (start Examples.ready)) = Ok tt ∧
  loadingState (app (snd (fetchBooksTimer Examples.closedOnce Examples.ready
                            (start Examples.ready)))) = error.
Proof.
  pose proof (fetch_connection_issue Examples.closedOnce Examples.ready
                (start Examples.ready) "Error: database is closed"
                eq_refl eq_refl eq_refl) as (Htrace & _ & _ & Hend).
  split; [exact Htrace | exact Hend].
Defined.

(** A message of another kind: no re-initialization, the [error] state. *)
Lemma fetch_other_error
  (w : World) (c : AppState) (m : Machine) (msg : string) :
  emptyIdView c = false →
  getAllBooks (storeAt w (calls m)) (fetchParams c) = Throw msg →
  connectionIssue msg = false →
  fst (fetchBooksTimer w c m) = Ok tt ∧
  trace (snd (fetchBooksTimer w c m))
    = (trace m ++ [CallGetAllBooks (fetchParams c)])%list ∧
  loadingState (app (snd (fetchBooksTimer w c m))) = error.
Proof.
  intros Hview Hthrow Hissue.
  assert (Hrun : fetchBooksTimer w c m
                 = (Ok tt,
                    {| app := setLoadingState error (app m);
                       calls := S (calls m);
                       trace := (trace m ++ [CallGetAllBooks (fetchParams c)])%list |})).
  { unfold fetchBooksTimer, tryCatch. rewrite Hview.
    unfold bind at 1, callStore at 1. rewrite Hthrow, Hissue.
    reflexivity. }
  rewrite Hrun. repeat split.
Qed.

(** A query that answers: the books and the page count are stored and the
    request ends in the [success] state. *)
Lemma fetch_success
  (w : World) (c : AppState) (m : Machine) (response : Response) :
  emptyIdView c = false →
  getAllBooks (storeAt w (calls m)) (fetchParams c) = Ok response →
  fst (fetchBooksTimer w c m) = Ok tt ∧
  books (app (snd (fetchBooksTimer w c m))) = data response ∧
  totalPages (app (snd (fetchBooksTimer w c m)))
    = Database.totalPages (pagination response) ∧
  loadingState (app (snd (fetchBooksTimer w c m))) = success.
Proof.
  intros Hview Hok.
  assert (Hrun : fetchBooksTimer w c m
                 = (Ok tt,
                    {| app := setLoadingState success
                                (setTotalPages
                                   (Database.totalPages (pagination response))
                                   (setBooks (data response) (app m)));
                       calls := S (calls m);
                       trace := (trace m ++ [CallGetAllBooks (fetchParams c)])%list |})).
  { unfold fetchBooksTimer, tryCatch. rewrite Hview.
    unfold bind at 1, callStore at 1. rewrite Hok.
    reflexivity. }
  rewrite Hrun. repeat split.
Qed.

(** C8 as stated fails: the reader was left at chapter index 3, the store
    does not answer, and a book without bookmark is selected; the book is
    selected and the chapter index stays 3 instead of becoming 0. *)
Lemma handleBookSelect_store_unavailable :
  bookmarks Examples.leftAtThree !! Book.book_id Examples.otherBook = None ∧
  selectedBook (app (snd (handleBookSelect Examples.noTable Examples.leftAtThree
                            Examples.otherBook (start Examples.leftAtThree))))
    = Some Examples.otherBook ∧
  currentChapterIdx
    (app (snd (handleBookSelect Examples.noTable Examples.leftAtThree
                 Examples.otherBook (start Examples.leftAtThree)))) = 3 ∧
  currentChapterIdx
    (app (snd (handleBookSelect Examples.noTable Examples.leftAtThree
                 Examples.otherBook (start Examples.leftAtThree)))) ≠ 0.
Proof.
  split; [reflexivity |]. split; [reflexivity |]. split; [reflexivity |].
  vm_compute. discriminate.
Qed.

Lemma isBookmarkedFlag_true (st : AppState) (book : Book.t) :
  isBookmarkedFlag st book = true ↔
  bookmarks st !! Book.book_id book = Some (currentChapterIdx st).
Proof. unfold isBookmarkedFlag. apply bool_decide_eq_true. Qed.

(** C8 (amended).  When the chapters of the selected book are fetched
    without error, the reader starts at the book's saved bookmark if the
    bookmarks hold one for its id and at 0 otherwise, and the
    [isBookmarked] flag is then set exactly if there is a saved bookmark.
    In every state the flag handed to the reader is set exactly if the
    saved bookmark of the selected book is the current chapter index. *)
Theorem handleBookSelect_starting_chapter
  (w : World) (c : AppState) (book : Book.t) (cs : list Chapter.t) :
  getChaptersByBookId (storeAt w 0) (Book.book_id book) = Ok cs →
  selectedBook (app (snd (handleBookSelect w c book (start c)))) = Some book ∧
  chapters (app (snd (handleBookSelect w c book (start c)))) = cs ∧
  currentChapterIdx (app (snd (handleBookSelect w c book (start c))))
    = match bookmarks c !! Book.book_id book with
      | Some i => i
      | None => 0
      end ∧
  (isBookmarkedFlag (app (snd (handleBookSelect w c book (start c)))) book = true
   ↔ is_Some (bookmarks c !! Book.book_id book)) ∧
  (∀ (st : AppState) (props : Reader.ReaderProps),
     render true st = ReaderScreen props →
     selectedBook st = Some (Reader.book props) ∧
     Reader.chapters props = chapters st ∧
     Reader.currentChapterIndex props = currentChapterIdx st ∧
     (Reader.isBookmarked props = true ↔
      bookmarks st !! Book.book_id (Reader.book props)
        = Some (currentChapterIdx st))).
Proof.
  intros Hfetch.
  assert (Hrun : handleBookSelect w c book (start c)
                 = (Ok tt,
                    {| app := setLoadingChapters false
                                (setCurrentChapterIdx
                                   (match bookmarks c !! Book.book_id book with
                                    | Some i => i
                                    | None => 0
                                    end)
                                   (setChapters cs
                                      (setLoadingChapters true
                                         (setSelectedBook (Some book) c))));
                       calls := 1;
                       trace := [CallGetChaptersByBookId (Book.book_id book)] |})).
  { unfold handleBookSelect, tryFinally, tryCatch, bind, callStore, set, start.
    simpl. rewrite Hfetch. reflexivity. }
  rewrite Hrun. simpl.
  split; [reflexivity |]. split; [reflexivity |]. split; [reflexivity |].
  split.
  - rewrite isBookmarkedFlag_true. simpl.
    destruct (bookmarks c !! Book.book_id book) as [i |].
    + split; [intros _; by eexists | reflexivity].
    + split; [discriminate | intros [i Hi]; discriminate Hi].
  - intros st props. unfold render. simpl.
    destruct (dbMissing st); [discriminate |].
    destruct (dbReady st); [| discriminate]. simpl.
    destruct (selectedBook st) as [b |]; [| discriminate].
    intros [= <-]. simpl.
    repeat split; try apply isBookmarkedFlag_true; reflexivity.
Qed.

Lemma handleBookSelect_starting_chapter_witness :
  currentChapterIdx
    (app (snd (handleBookSelect (Examples.steady Examples.tenChapters)
                 Examples.markedAtFour Examples.gitanjali
                 (start Examples.markedAtFour)))) = 4 ∧
  length (chapters
            (app (snd (handleBookSelect (Examples.steady Examples.tenChapters)
                         Examples.markedAtFour Examples.gitanjali
                         (start Examples.markedAtFour))))) = 10%nat ∧
  isBookmarkedFlag
    (app (snd (handleBookSelect (Examples.steady Examples.tenChapters)
                 Examples.markedAtFour Examples.gitanjali
                 (start Examples.markedAtFour))))
    Examples.gitanjali = true ∧
  ∃ props,
    render true
      (app (snd (handleBookSelect (Examples.steady Examples.tenChapters)
                   Examples.markedAtFour Examples.gitanjali
                   (start Examples.markedAtFour)))) = ReaderScreen props ∧
    Reader.currentChapterIndex props = 4 ∧
    Reader.isBookmarked props = true.
Proof.
  pose proof (handleBookSelect_starting_chapter
                (Examples.steady Examples.tenChapters) Examples.markedAtFour
                Examples.gitanjali _ eq_refl)
    as (_ & Hcs & Hidx & Hflag & Hrender).
  split; [exact Hidx |]. split; [by rewrite Hcs |].
  split; [apply Hflag; by eexists |].
  eexists. split; [reflexivity |].
  match goal with
  | |- Reader.currentChapterIndex ?props = _ ∧ _ =>
      destruct (Hrender
                  (app (snd (handleBookSelect
                               (Examples.steady Examples.tenChapters)
                               Examples.markedAtFour Examples.gitanjali
                               (start Examples.markedAtFour))))
                  props eq_refl) as (_ & _ & Hprops & Hmarked)
  end.
  split; [exact Hprops | apply Hmarked; reflexivity].
Defined.

End ControllerFacts.

(** * Further properties of the code *)

(** ** Queries on the books *)

Section QueryFacts.
Import Database Queries.

Lemma imap_pair_snd {A : Type} (l : list A) (f : nat → Z) :
  (imap (λ i r, (f i, r)) l).*2 = l.
Proof.
  revert f. induction l as [| x l IH]; intros f; [reflexivity |].
  simpl. f_equal. apply (IH (f ∘ S)).
Qed.

Lemma order_by_random_perm {A : Type} (rnd : nat → Z) (l : list A) :
  Sql.order_by_random rnd l ≡ₚ l.
Proof.
  unfold Sql.order_by_random.
  rewrite (order_by_perm fst). by rewrite imap_pair_snd.
Qed.

(** The rows a query orders, before [LIMIT] and [OFFSET]. *)
Lemma ordered_perm (db : Tables) (params : Params.t) :
  (if Js.truthy_bool (Params.random params)
   then Sql.order_by_random (random db) (matching db params)
   else matching db params) ≡ₚ matching db params.
Proof.
  destruct (Js.truthy_bool (Params.random params)); [| reflexivity].
  apply order_by_random_perm.
Qed.





(** The books of page [k >= 1] without random order: the [k]-th run of
    [limit] rows among the matching ones. *)
Lemma pageData_window (db : Tables) (params : Params.t) (k : nat) :
  Js.truthy_bool (Params.random params) = false →
  0 < limit_of params →
  pageData db params (Z.of_nat (S k))
  = map toBook (take (Z.to_nat (limit_of params))
                  (drop (k * Z.to_nat (limit_of params))
                     (matching db params))).
Proof.
  intros Hrandom Hlimit. unfold pageData, getAllBooks.
  cbn [data]. f_equal.
  change (Params.random (withPage (Some (Z.of_nat (S k))) params))
    with (Params.random params).
  rewrite Hrandom.
  change (conditions (withPage (Some (Z.of_nat (S k))) params))
    with (conditions params).
  change (limit_of (withPage (Some (Z.of_nat (S k))) params))
    with (limit_of params).
  fold (matching db params).
  unfold Sql.limit_offset.
  destruct (Z.ltb_spec (limit_of params) 0); [lia |].
  f_equal. f_equal.
  unfold offset_of, page_of.
  change (limit_of (withPage (Some (Z.of_nat (S k))) params))
    with (limit_of params).
  cbn [Params.page withPage Js.or_num].
  destruct (Z.eqb_spec (Z.of_nat (S k)) 0); [lia |].
  rewrite Z2Nat.inj_mul by lia. f_equal. lia.
Qed.

(** X2.  Without random order and with a positive limit, the pages
    [1 .. n] of a query, read one after the other, are the first
    [n * limit] matching rows in the order of the table, none twice and
    none left out; and the pages up to [totalPages] are all of them. *)
Theorem pages_partition (db : Tables) (params : Params.t) (n : nat) :
  Js.truthy_bool (Params.random params) = false →
  0 < limit_of params →
  pagesUpTo db params n
    = map toBook (take (n * Z.to_nat (limit_of params)) (matching db params)) ∧
  pagesUpTo db params
      (Z.to_nat (Js.ceil_div (Z.of_nat (length (matching db params)))
                   (limit_of params)))
    = map toBook (matching db params).
Proof.
  intros Hrandom Hlimit.
  assert (Hup : ∀ n, pagesUpTo db params n
                     = map toBook (take (n * Z.to_nat (limit_of params))
                                     (matching db params))).
  { clear n. induction n as [| n IH]; [reflexivity |].
    unfold pagesUpTo in *.
    rewrite seq_S, map_app, concat_app, IH. simpl.
    rewrite pageData_window by assumption.
    rewrite app_nil_r, <- map_app, take_take_drop.
    do 2 f_equal. lia. }
  split; [apply Hup |].
  rewrite Hup, take_ge; [reflexivity |].
  pose proof (ceil_div_spec (Z.of_nat (length (matching db params)))
                (limit_of params) Hlimit) as [_ Hle].
  set (q := Js.ceil_div _ _) in *.
  assert (0 <= q) by nia.
  apply Nat2Z.inj_le. rewrite Nat2Z.inj_mul, !Z2Nat.id by lia. exact Hle.
Qed.

Lemma pages_partition_witness :
  pagesUpTo Examples.library25 (Examples.query None (Some 20) None) 2
  = map toBook (matching Examples.library25 (Examples.query None (Some 20) None)).
Proof.
  exact (proj2 (pages_partition Examples.library25
                  (Examples.query None (Some 20) None) 0 eq_refl eq_refl)).
Defined.

(** X3.  A page past the last one is empty, while [total] still counts
    the matching rows: asking for page [p > totalPages] of a query with a
    positive limit returns no book. *)
Theorem page_past_the_last_is_empty
  (db : Tables) (params : Params.t) (p : Z) (r : Response) :
  Params.page params = Some p →
  0 < limit_of params →
  getAllBooks (Opened db) params = Ok r →
  totalPages (pagination r) < p →
  data r = [] ∧
  total (pagination r) = Z.of_nat (length (matching db params)).
Proof.
  intros Hpage Hlimit Hr Hpast. injection Hr as <-. cbn in *.
  split; [| reflexivity].
  fold (matching db params) in *.
  pose proof (ceil_div_spec (Z.of_nat (length (matching db params)))
                (limit_of params) Hlimit) as [_ Hle].
  set (q := Js.ceil_div _ _) in *.
  assert (Hpg : page_of params = p).
  { unfold page_of. rewrite Hpage. simpl.
    destruct (Z.eqb_spec p 0); [| reflexivity].
    assert (0 <= q) by nia. lia. }
  unfold Sql.limit_offset.
  destruct (Z.ltb_spec (limit_of params) 0); [lia |].
  rewrite drop_ge; [by rewrite take_nil |].
  rewrite (Permutation_length (ordered_perm db params)).
  unfold offset_of. rewrite Hpg.
  apply Nat2Z.inj_le. rewrite Z2Nat.id by nia. nia.
Qed.

Lemma page_past_the_last_is_empty_witness :
  ∃ r, getAllBooks (Opened Examples.library25)
         (Examples.query (Some 3) (Some 20) None) = Ok r ∧
       data r = [] ∧ total (pagination r) = 25.
Proof.
  eexists. split; [reflexivity |].
  apply (page_past_the_last_is_empty Examples.library25
           (Examples.query (Some 3) (Some 20) None) 3 _
           eq_refl eq_refl eq_refl).
  vm_compute. reflexivity.
Defined.

(** X4.  Random order changes neither [total] nor [totalPages], and when
    the matching rows fit on the first page it returns the books of the
    query without random order, in some order. *)
Theorem random_order_same_books
  (db : Tables) (params : Params.t) (r1 r2 : Response) :
  getAllBooks (Opened db) (withRandom (Some true) params) = Ok r1 →
  getAllBooks (Opened db) (withRandom None params) = Ok r2 →
  pagination r1 = pagination r2 ∧
  (page (pagination r2) = 1 →
   total (pagination r2) <= limit (pagination r2) →
   data r1 ≡ₚ data r2).
Proof.
  intros Hr1 Hr2. injection Hr1 as <-. injection Hr2 as <-.
  split; [reflexivity |]. cbn.
  change (conditions (withRandom (Some true) params)) with (conditions params).
  change (conditions (withRandom None params)) with (conditions params).
  change (limit_of (withRandom (Some true) params)) with (limit_of params).
  change (limit_of (withRandom None params)) with (limit_of params).
  change (offset_of (withRandom (Some true) params)) with (offset_of params).
  change (offset_of (withRandom None params)) with (offset_of params).
  change (page_of (withRandom None params)) with (page_of params).
  fold (matching db params).
  intros Hpage Hfit.
  assert (Hwhole : ∀ l : list BookRow.t,
             length l = length (matching db params) →
             Sql.limit_offset (limit_of params) (offset_of params) l = l).
  { intros l Hlen. unfold Sql.limit_offset, offset_of. rewrite Hpage.
    simpl. destruct (limit_of params <? 0); [reflexivity |].
    apply take_ge. lia. }
  rewrite !Hwhole; [| reflexivity | apply order_by_random_length].
  apply Permutation_map, order_by_random_perm.
Qed.

Lemma random_order_same_books_witness :
  ∃ r1 r2,
    getAllBooks (Opened Examples.library25)
      (withRandom (Some true) (Examples.query None None None)) = Ok r1 ∧
    getAllBooks (Opened Examples.library25)
      (withRandom None (Examples.query None None None)) = Ok r2 ∧
    data r1 ≡ₚ data r2.
Proof.
  do 2 eexists. split; [reflexivity |]. split; [reflexivity |].
  apply (random_order_same_books Examples.library25
           (Examples.query None None None) _ _ eq_refl eq_refl).
  - reflexivity.
  - vm_compute. discriminate.
Defined.


(** *** The [LIKE] patterns *)

Lemma like_percent_unfold (p t : string) :
  Sql.like (String "%" p) t
  = Sql.like p t
    || match t with
       | EmptyString => false
       | String _ t' => Sql.like (String "%" p) t'
       end.
Proof. destruct t; reflexivity. Qed.

Lemma like_percent (t : string) : Sql.like "%" t = true.
Proof.
  induction t as [| c t IH]; [reflexivity |].
  rewrite like_percent_unfold, IH. apply orb_true_r.
Qed.

Lemma like_percent_all (p : string) :
  (∀ t, Sql.like p t = true) → ∀ t, Sql.like (String "%" p) t = true.
Proof. intros Hall t. by rewrite like_percent_unfold, Hall. Qed.

Lemma append_empty (a b : string) : a ++ b = "" → a = "" ∧ b = "".
Proof. destruct a; simpl; [tauto | discriminate]. Qed.

(** A pattern that starts with [%] matches the strings an end of which
    the rest of the pattern matches. *)
Lemma like_percent_suffix (p t : string) :
  Sql.like (String "%" p) t = true ↔
  ∃ pre post, t = pre ++ post ∧ Sql.like p post = true.
Proof.
  induction t as [| c t IH]; rewrite like_percent_unfold.
  - rewrite orb_false_r. split.
    + intros Hp. by exists "", "".
    + intros (pre & post & Heq & Hp).
      symmetry in Heq. apply append_empty in Heq as [_ ->]. exact Hp.
  - rewrite orb_true_iff, IH. split.
    + intros [Hp | (pre & post & -> & Hp)].
      * by exists "", (String c t).
      * by exists (String c pre), post.
    + intros (pre & post & Heq & Hp).
      destruct pre as [| d pre]; simpl in Heq.
      * left. by rewrite Heq.
      * right. injection Heq as -> ->. by exists pre, post.
Qed.

Lemma like_char (c : ascii) (p t : string) :
  Ascii.eqb c "%" = false →
  Ascii.eqb c "_" = false →
  Sql.like (String c p) t
  = match t with
    | EmptyString => false
    | String d t' => Ascii.eqb (Sql.lower c) (Sql.lower d) && Sql.like p t'
    end.
Proof. intros H1 H2. destruct t; simpl; rewrite H1, H2; reflexivity. Qed.

(** A term without wildcard, followed by [%], matches the strings that
    start with the term, letters compared without regard to case. *)
Lemma like_literal (s t : string) :
  noWildcard s = true →
  (Sql.like (s ++ "%") t = true ↔
   ∃ mid post, t = mid ++ post ∧ lowerString mid = lowerString s).
Proof.
  revert t. induction s as [| c s IH]; intros t Hs.
  - simpl. rewrite like_percent. split; [| reflexivity].
    intros _. by exists "", t.
  - simpl in Hs. rewrite !andb_true_iff, !negb_true_iff in Hs.
    destruct Hs as [[Hc1 Hc2] Hs].
    change (String c s ++ "%") with (String c (s ++ "%")).
    rewrite (like_char c _ t Hc1 Hc2).
    destruct t as [| d t].
    + split; [discriminate |].
      intros (mid & post & Heq & Hlow).
      symmetry in Heq. apply append_empty in Heq as [-> _]. discriminate Hlow.
    + rewrite andb_true_iff, (IH t Hs), Ascii.eqb_eq. split.
      * intros (Hcd & mid & post & -> & Hlow).
        exists (String d mid), post. simpl. by rewrite Hcd, Hlow.
      * intros (mid & post & Heq & Hlow).
        destruct mid as [| d' mid]; [discriminate Hlow |].
        simpl in Heq, Hlow. injection Heq as -> ->.
        injection Hlow as Hd Hlow. split; [by rewrite Hd |].
        by exists mid, post.
Qed.

(** The pattern of a term without wildcard matches the strings in which
    the term occurs. *)
Lemma like_contains (s t : string) :
  noWildcard s = true →
  (Sql.like (Sql.contains_pattern s) t = true ↔ occursIn s t).
Proof.
  intros Hs. change (Sql.contains_pattern s) with (String "%" (s ++ "%")).
  rewrite like_percent_suffix. unfold occursIn. split.
  - intros (pre & rest & -> & Hrest).
    apply like_literal in Hrest as (mid & post & -> & Hlow); [| exact Hs].
    by exists pre, mid, post.
  - intros (pre & mid & post & -> & Hlow).
    exists pre, (mid ++ post). split; [reflexivity |].
    apply like_literal; [exact Hs |]. by exists mid, post.
Qed.

(** X5.  A search term without [%] and [_] selects exactly the books in
    whose title or author the term occurs, ASCII letters compared without
    regard to case. *)
Theorem search_is_substring_match
  (db : Tables) (s : string) (row : BookRow.t) :
  s ≠ "" →
  noWildcard s = true →
  (row ∈ matching db (searchQuery s) ↔
   row ∈ books db ∧
   (occursIn s (BookRow.title row) ∨ occursIn s (BookRow.author row))).
Proof.
  intros Hne Hs. unfold matching.
  rewrite list_elem_of_filter.
  assert (Hconds : conditions (searchQuery s)
                   = [SearchLike (Sql.contains_pattern s)]).
  { unfold conditions. simpl.
    destruct (String.eqb_spec s ""); [contradiction | reflexivity]. }
  rewrite Hconds. unfold whereClause. cbn [forallb holds].
  rewrite andb_true_r, orb_true_iff, !like_contains by exact Hs.
  tauto.
Qed.

Lemma search_is_substring_match_witness :
  Examples.book 1 "Gitanjali" "Rabindranath Tagore"
    ∈ matching Examples.oneBook (searchQuery "tagore").
Proof.
  apply (search_is_substring_match Examples.oneBook "tagore");
    [discriminate | reflexivity |].
  split; [by left |]. right.
  by exists "Rabindranath ", "Tagore", "".
Defined.

(** X6.  The wildcards of a search term are not escaped: the term [%]
    selects every book, as no term at all. *)
Theorem search_percent_selects_all (st : Store) (params : Params.t) :
  getAllBooks st (withSearch (Some "%") params)
  = getAllBooks st (withSearch None params).
Proof.
  destruct st as [db | msg]; [| reflexivity].
  assert (Hsame : matching db (withSearch (Some "%") params)
                  = matching db (withSearch None params)).
  { unfold matching. apply list_filter_iff. intros row.
    change (conditions (withSearch (Some "%") params))
      with (SearchLike (Sql.contains_pattern "%")
              :: conditions (withSearch None params)).
    unfold whereClause. simpl forallb.
    assert (Hall : ∀ t, Sql.like (Sql.contains_pattern "%") t = true).
    { apply like_percent_all, like_percent_all. apply like_percent. }
    by rewrite !Hall. }
  unfold getAllBooks.
  fold (matching db (withSearch (Some "%") params)).
  fold (matching db (withSearch None params)).
  rewrite Hsame. reflexivity.
Qed.

(** *** Covers *)

Lemma prefix_nonempty (p s : string) :
  p ≠ "" → String.prefix p s = true → s ≠ "".
Proof.
  intros Hp Hpre ->. destruct p; [contradiction | discriminate Hpre].
Qed.

(** X7.  The cover of a book is always a URL or an embedded image: it
    starts with [http] or with [data:].  A stored cover of that form is
    passed on as it is, so resolving a resolved cover changes nothing. *)
Theorem coverUrl_is_reference (row : BookRow.t) :
  Js.startsWith (coverUrl row) "http" || Js.startsWith (coverUrl row) "data:"
    = true ∧
  coverUrl (BookRow.mk (BookRow.book_id row) (BookRow.title row)
              (BookRow.author row) (Some (coverUrl row)))
    = coverUrl row.
Proof.
  assert (Hform : Js.startsWith (coverUrl row) "http"
                  || Js.startsWith (coverUrl row) "data:" = true).
  { unfold coverUrl.
    destruct (Js.truthy_str (BookRow.cover_image row)); [| reflexivity].
    set (c := default "" (BookRow.cover_image row)).
    destruct (Js.startsWith c "http" || Js.startsWith c "data:") eqn:Hc;
      [exact Hc | reflexivity]. }
  split; [exact Hform |].
  assert (Hne : coverUrl row ≠ "").
  { apply orb_true_iff in Hform as [H | H];
      eapply prefix_nonempty; try exact H; discriminate. }
  unfold coverUrl at 1. cbn [BookRow.cover_image Js.truthy_str default].
  destruct (String.eqb_spec (coverUrl row) ""); [contradiction |].
  cbn [negb]. unfold id. by rewrite Hform.
Qed.

Lemma includes_placeholder (rest : string) :
  Js.includes ("https://picsum.photos/seed/" ++ rest) "picsum.photos" = true.
Proof. reflexivity. Qed.

(** X8.  A book without stored cover gets the placeholder keyed by its id,
    and its card lays the title over the cover. *)
Theorem placeholder_cover_shows_title (row : BookRow.t) :
  Js.truthy_str (BookRow.cover_image row) = false →
  Book.cover_url (toBook row)
    = "https://picsum.photos/seed/" ++ pretty (BookRow.book_id row) ++ "/400/600" ∧
  BookCard.showsTitleOverlay (toBook row) = true.
Proof.
  intros Hnone. unfold BookCard.showsTitleOverlay.
  cbn [toBook Book.cover_url]. unfold coverUrl. rewrite Hnone.
  split; [reflexivity | apply includes_placeholder].
Qed.

Lemma placeholder_cover_shows_title_witness :
  Book.cover_url Examples.gitanjali = "https://picsum.photos/seed/1/400/600" ∧
  BookCard.showsTitleOverlay Examples.gitanjali = true.
Proof.
  exact (placeholder_cover_shows_title
           (Examples.book 1 "Gitanjali" "Rabindranath Tagore") eq_refl).
Defined.

(** *** Chapters *)


(** X9.  [getChaptersByBookId] returns the chapters of the book and no
    other: every chapter returned carries the [bookId], the chapters
    returned are the rows of the book, each once, and every one has a
    title that is not empty, the stored one or ["Chapter N"]. *)
Theorem getChaptersByBookId_chapters_of_book
  (db : Tables) (bookId : Z) (cs : list Chapter.t) :
  getChaptersByBookId (Opened db) bookId = Ok cs →
  Forall (λ c, Chapter.book_id c = bookId ∧ Chapter.title c ≠ "") cs ∧
  cs ≡ₚ map toChapter
          (filter (λ r, ChapterRow.book_id r = bookId) (chapters db)) ∧
  length cs
    = length (filter (λ r, ChapterRow.book_id r = bookId) (chapters db)).
Proof.
  intros Hcs. injection Hcs as <-. unfold chapterRows.
  set (rows := filter _ (chapters db)).
  pose proof (order_by_perm ChapterRow.chapter_number rows) as Hperm.
  split; [| split].
  - rewrite Forall_forall. intros c Hc.
    apply list_elem_of_In, in_map_iff in Hc as (row & <- & Hrow).
    apply list_elem_of_In in Hrow. rewrite Hperm in Hrow.
    apply list_elem_of_filter in Hrow as [Hbook _].
    split; [exact Hbook |].
    cbn [toChapter Chapter.title]. unfold Js.or_str.
    destruct (ChapterRow.chapter_title row) as [t |]; [| discriminate].
    destruct (String.eqb_spec t ""); [discriminate | assumption].
  - by apply Permutation_map.
  - by rewrite length_map, order_by_length.
Qed.

Lemma getChaptersByBookId_chapters_of_book_witness :
  ∃ cs, getChaptersByBookId (Opened Examples.tenChapters) 1 = Ok cs ∧
        length cs = 10%nat.
Proof.
  eexists. split; [reflexivity |].
  destruct (getChaptersByBookId_chapters_of_book Examples.tenChapters 1 _ eq_refl)
    as (_ & _ & Hlen).
  exact Hlen.
Defined.



(** *** Authors *)

Lemma booksBy_snoc (a : string) (rows : list BookRow.t) (r : BookRow.t) :
  booksBy a (rows ++ [r])
  = booksBy a rows + (if decide (BookRow.author r = a) then 1 else 0).
Proof.
  unfold booksBy. rewrite filter_app, length_app, Nat2Z.inj_add.
  f_equal. rewrite filter_cons, filter_nil.
  destruct (decide (BookRow.author r = a)); reflexivity.
Qed.

Lemma booksBy_none (a : string) (rows : list BookRow.t) :
  (∀ r, r ∈ rows → BookRow.author r ≠ a) → booksBy a rows = 0.
Proof.
  intros Hnone. unfold booksBy.
  induction rows as [| r rows IH]; [reflexivity |].
  rewrite filter_cons.
  destruct (decide (BookRow.author r = a)) as [Heq | Hne].
  - exfalso. apply (Hnone r); [left | exact Heq].
  - apply IH. intros r' Hr'. apply Hnone. by right.
Qed.

Lemma bump_authors (a : string) (groups : list Author.t) :
  map Author.author (bump a groups)
  = if decide (a ∈ map Author.author groups)
    then map Author.author groups
    else (map Author.author groups ++ [a])%list.
Proof.
  induction groups as [| g groups IH]; simpl.
  - destruct (decide (a ∈ [])) as [Hin | _]; [| reflexivity].
    by apply not_elem_of_nil in Hin.
  - destruct (String.eqb_spec (Author.author g) a) as [Heq | Hne]; simpl.
    + rewrite decide_True by (rewrite Heq; left). by rewrite Heq.
    + rewrite IH.
      destruct (decide (a ∈ map Author.author groups)) as [Hin | Hout].
      * rewrite decide_True by (by right). reflexivity.
      * rewrite decide_False; [reflexivity |].
        intros Hin. apply elem_of_cons in Hin as [-> | Hin]; tauto.
Qed.

Lemma bump_elem (a : string) (groups : list Author.t) (x : Author.t) :
  NoDup (map Author.author groups) →
  x ∈ bump a groups →
  (Author.author x ≠ a ∧ x ∈ groups) ∨
  (Author.author x = a ∧
   ((∃ y, y ∈ groups ∧ Author.author y = a ∧
          Author.book_count x = Author.book_count y + 1) ∨
    ((a ∉ map Author.author groups) ∧ Author.book_count x = 1))).
Proof.
  induction groups as [| g groups IH]; simpl; intros Hnd.
  - intros Hx. apply list_elem_of_singleton in Hx as ->.
    right. split; [reflexivity |]. right.
    split; [apply not_elem_of_nil | reflexivity].
  - apply NoDup_cons in Hnd as [Hg Hnd].
    destruct (String.eqb_spec (Author.author g) a) as [Heq | Hne].
    + intros Hx. apply elem_of_cons in Hx as [-> | Hx].
      * right. split; [reflexivity |]. left.
        exists g. split; [left | by split].
      * left. split; [| by right].
        intros Hxa. apply Hg. rewrite Heq, <- Hxa.
        apply list_elem_of_In, in_map, list_elem_of_In, Hx.
    + intros Hx. apply elem_of_cons in Hx as [-> | Hx].
      * left. split; [exact Hne | left].
      * destruct (IH Hnd Hx) as [[Hxa Hin] | [Hxa Hcases]].
        -- left. split; [exact Hxa | by right].
        -- right. split; [exact Hxa |].
           destruct Hcases as [(y & Hy & Hya & Hcount) | [Hout Hone]].
           ++ left. exists y. split; [by right | by split].
           ++ right. split; [| exact Hone].
              intros Hin. apply elem_of_cons in Hin as [-> | Hin]; tauto.
Qed.

Lemma bump_sum (a : string) (groups : list Author.t) :
  sumCounts (bump a groups) = sumCounts groups + 1.
Proof.
  induction groups as [| g groups IH]; simpl; [reflexivity |].
  destruct (String.eqb (Author.author g) a); simpl; lia.
Qed.

(** One more row: its author's group is bumped. *)
Lemma grouped_step
  (groups : list Author.t) (rows : list BookRow.t) (r : BookRow.t) :
  grouped groups rows →
  grouped (bump (BookRow.author r) groups) (rows ++ [r]).
Proof.
  intros (Hnd & Hcount & Hcover & Hsum).
  set (a := BookRow.author r).
  split; [| split; [| split]].
  - rewrite bump_authors.
    destruct (decide (a ∈ map Author.author groups)); [exact Hnd |].
    apply NoDup_app. split; [exact Hnd |]. split.
    + intros x Hx Hxa. apply list_elem_of_singleton in Hxa as ->. tauto.
    + apply NoDup_singleton.
  - intros x Hx. rewrite booksBy_snoc. fold a.
    destruct (bump_elem a groups x Hnd Hx) as [[Hxa Hin] | [Hxa Hcases]].
    + rewrite decide_False by congruence.
      destruct (Hcount x Hin) as [-> Hpos]. lia.
    + rewrite decide_True by congruence.
      destruct Hcases as [(y & Hy & Hya & Hone) | [Hout Hone]].
      * destruct (Hcount y Hy) as [Hy1 Hy2]. rewrite Hxa, <- Hya. lia.
      * rewrite Hone, Hxa, booksBy_none; [lia |].
        intros r' Hr' Hra. apply Hout, Hcover. by exists r'.
  - intros b. rewrite bump_authors.
    assert (Hsnoc : (∃ r', r' ∈ (rows ++ [r])%list ∧ BookRow.author r' = b)
                    ↔ (∃ r', r' ∈ rows ∧ BookRow.author r' = b) ∨ a = b).
    { split.
      - intros (r' & Hr' & Hb). apply elem_of_app in Hr' as [Hr' | Hr'].
        + left. by exists r'.
        + apply list_elem_of_singleton in Hr' as ->. by right.
      - intros [(r' & Hr' & Hb) | Hb].
        + exists r'. split; [apply elem_of_app; by left | exact Hb].
        + exists r. split; [apply elem_of_app; right; left | exact Hb]. }
    rewrite Hsnoc, <- Hcover.
    destruct (decide (a ∈ map Author.author groups)) as [Hin | Hout].
    + split; [tauto |]. intros [Hb | <-]; assumption.
    + rewrite elem_of_app, list_elem_of_singleton.
      split; intros [Hb | Hb]; auto.
  - rewrite bump_sum, Hsum, length_app. simpl. lia.
Qed.

Lemma grouped_foldl
  (rows : list BookRow.t) (groups : list Author.t) (done : list BookRow.t) :
  grouped groups done →
  grouped (foldl (λ gs r, bump (BookRow.author r) gs) groups rows)
          (done ++ rows).
Proof.
  revert groups done. induction rows as [| r rows IH]; intros groups done Hg.
  - by rewrite app_nil_r.
  - simpl. rewrite (cons_middle r done rows), app_assoc.
    apply IH. by apply grouped_step.
Qed.

Lemma group_by_author_grouped (rows : list BookRow.t) :
  grouped (group_by_author rows) rows.
Proof.
  apply (grouped_foldl rows [] []).
  split; [constructor |]. split; [intros g Hg; by apply not_elem_of_nil in Hg |].
  split; [| reflexivity].
  intros a. split.
  - intros Ha. by apply not_elem_of_nil in Ha.
  - intros (r & Hr & _). by apply not_elem_of_nil in Hr.
Qed.

Lemma sumCounts_perm (l1 l2 : list Author.t) :
  l1 ≡ₚ l2 → sumCounts l1 = sumCounts l2.
Proof.
  induction 1; simpl; lia.
Qed.

Lemma grouped_perm (l1 l2 : list Author.t) (rows : list BookRow.t) :
  l1 ≡ₚ l2 → grouped l1 rows → grouped l2 rows.
Proof.
  intros Hperm (Hnd & Hcount & Hcover & Hsum).
  pose proof (Permutation_map Author.author Hperm) as Hmap.
  split; [by rewrite <- Hmap |].
  split; [intros g Hg; apply Hcount; by rewrite Hperm |].
  split; [intros a; by rewrite <- Hmap |].
  by rewrite <- (sumCounts_perm _ _ Hperm).
Qed.

(** X11.  [getAllAuthors] lists every author of a book once, each with
    the number of that author's books, which is positive; the numbers add
    up to the number of books. *)
Theorem getAllAuthors_groups (db : Tables) (gs : list Author.t) :
  getAllAuthors (Opened db) = Ok gs →
  NoDup (map Author.author gs) ∧
  (∀ g, g ∈ gs →
        Author.book_count g = booksBy (Author.author g) (books db) ∧
        0 < Author.book_count g) ∧
  (∀ a, a ∈ map Author.author gs ↔
        ∃ r, r ∈ books db ∧ BookRow.author r = a) ∧
  sumCounts gs = Z.of_nat (length (books db)).
Proof.
  intros Hgs. injection Hgs as <-.
  apply (grouped_perm (group_by_author (books db))).
  - symmetry. apply order_by_perm.
  - apply group_by_author_grouped.
Qed.

Lemma getAllAuthors_groups_witness :
  ∃ gs, getAllAuthors (Opened Examples.library25) = Ok gs ∧
        sumCounts gs = 25.
Proof.
  eexists. split; [reflexivity |].
  destruct (getAllAuthors_groups Examples.library25 _ eq_refl)
    as (_ & _ & _ & Hsum).
  exact Hsum.
Defined.

Lemma Sorted_neg_ge {A : Type} (f : A → Z) (l : list A) :
  Sorted Z.le (map (λ x, - f x) l) → Sorted Z.ge (map f l).
Proof.
  induction l as [| x l IH]; simpl; intros Hs; [constructor |].
  inversion Hs as [| ? ? Hs' Hhd]; subst.
  constructor; [by apply IH |].
  destruct l as [| y l]; simpl in *; constructor.
  inversion Hhd; subst. lia.
Qed.

(** X12.  [getAllAuthors] lists the authors by falling number of books,
    and the home view shows of them at most ten, none called ['Unknown'],
    in that order. *)
Theorem getAllAuthors_descending (db : Tables) (gs : list Author.t) :
  getAllAuthors (Opened db) = Ok gs →
  Sorted Z.ge (map Author.book_count gs) ∧
  StronglySorted Z.ge (map Author.book_count (Flow.topAuthors gs)) ∧
  (length (Flow.topAuthors gs) <= 10)%nat ∧
  Forall (λ g, g ∈ gs ∧ Author.author g ≠ "Unknown") (Flow.topAuthors gs).
Proof.
  intros Hgs. injection Hgs as <-.
  set (gs := Sql.order_by _ _).
  assert (Hsorted : Sorted Z.ge (map Author.book_count gs)).
  { apply Sorted_neg_ge, order_by_Sorted. }
  split; [exact Hsorted |].
  unfold Flow.topAuthors. split; [| split].
  - apply Sorted_StronglySorted in Hsorted; [| intros x y z; lia].
    clearbody gs. clear db.
    assert (Hfilter : StronglySorted Z.ge
              (map Author.book_count
                 (filter (λ a, Author.author a ≠ "Unknown") gs))).
    { induction gs as [| g gs IH]; [constructor |].
      simpl in Hsorted. apply StronglySorted_inv in Hsorted as [Hs Hall].
      rewrite filter_cons.
      destruct (decide (Author.author g ≠ "Unknown")); [| by apply IH].
      simpl. constructor; [by apply IH |].
      rewrite Forall_forall in Hall. apply Forall_forall.
      intros m Hm. apply Hall.
      apply list_elem_of_In, in_map_iff in Hm as (x & <- & Hx).
      apply list_elem_of_In, in_map.
      apply list_elem_of_In. apply list_elem_of_In in Hx.
      by apply list_elem_of_filter in Hx as [_ Hx]. }
    revert Hfilter.
    generalize (filter (λ a, Author.author a ≠ "Unknown") gs).
    intros l. generalize 10%nat. intros k. revert l.
    induction k as [| k IH]; intros l Hl; [constructor |].
    destruct l as [| x l]; [constructor |].
    simpl in *. apply StronglySorted_inv in Hl as [Hs Hall].
    constructor; [by apply IH |].
    rewrite Forall_forall in Hall. apply Forall_forall.
    intros m Hm. apply Hall.
    apply list_elem_of_In, in_map_iff in Hm as (y & <- & Hy).
    apply list_elem_of_In, in_map.
    apply list_elem_of_In. apply list_elem_of_In in Hy.
    by apply subseteq_take in Hy.
  - rewrite length_take. lia.
  - rewrite Forall_forall. intros g Hg.
    apply subseteq_take in Hg.
    apply list_elem_of_filter in Hg as [Hname Hin]. by split.
Qed.

Lemma getAllAuthors_descending_witness :
  ∃ gs, getAllAuthors (Opened Examples.library25) = Ok gs ∧
        (length (Flow.topAuthors gs) <= 10)%nat.
Proof.
  eexists. split; [reflexivity |].
  destruct (getAllAuthors_descending Examples.library25 _ eq_refl)
    as (_ & _ & Hlen & _).
  exact Hlen.
Defined.

End QueryFacts.

(** ** The database file and the connection *)

Section DeviceFacts.
Import Device.

(** X13.  An import whose picked file can be copied returns [true]: the
    file is then the database file, the other files are as they were, the
    database is found to exist and [initDatabase] passes; the connection
    that was open is closed and [_dbInstance] is empty, so that the next
    query opens the new file. *)
Theorem importDatabase_replaces_database
  (fs : Files) (c : Connection) (dir uri content : string) :
  documentDirectory fs = Some dir →
  dir ≠ "" →
  files fs !! uri = Some content →
  ∃ fs' c',
    importDatabase (Assets uri) fs c = (Ok true, fs', c') ∧
    files fs' !! dbPath dir = Some content ∧
    (∀ path, path ≠ dbPath dir → files fs' !! path = files fs !! path) ∧
    checkDatabaseExists fs' = true ∧
    initDatabase fs' = Ok tt ∧
    _dbInstance c' = None ∧
    (∀ h, _dbInstance c = Some h → h ∈ closed c').
Proof.
  intros Hdir Hne Hfile.
  assert (Htruthy : Js.truthy_str (documentDirectory fs) = true).
  { rewrite Hdir. simpl. by destruct (String.eqb_spec dir ""). }
  unfold importDatabase, copyAsync. rewrite Htruthy, Hdir, Hfile. simpl.
  do 2 eexists. split; [reflexivity |].
  assert (Hexists : checkDatabaseExists
                      {| documentDirectory := Some dir;
                         files := <[dbPath dir := content]> (files fs) |} = true).
  { unfold checkDatabaseExists. cbn [documentDirectory files default].
    rewrite <- Hdir, Htruthy. cbn [negb]. unfold id.
    apply bool_decide_eq_true. rewrite lookup_insert_eq. by eexists. }
  split; [apply lookup_insert_eq |].
  split; [intros path Hpath; by apply lookup_insert_ne |].
  split; [exact Hexists |].
  split; [unfold initDatabase; by rewrite Hexists |].
  unfold closeDatabaseConnection.
  destruct (_dbInstance c) as [h |] eqn:Hh; simpl.
  - split; [reflexivity |]. intros h' [= <-]. left.
  - split; [exact Hh |]. intros h' Hh'. discriminate Hh'.
Qed.

Lemma importDatabase_replaces_database_witness :
  ∃ fs' c',
    importDatabase (Assets "file:///cache/picked.db")
      MoreExamples.phone MoreExamples.openConnection = (Ok true, fs', c') ∧
    checkDatabaseExists fs' = true ∧
    _dbInstance c' = None.
Proof.
  destruct (importDatabase_replaces_database MoreExamples.phone
              MoreExamples.openConnection "file:///data/"
              "file:///cache/picked.db" "SQLite format 3"
              eq_refl ltac:(discriminate) eq_refl)
    as (fs' & c' & Himport & _ & _ & Hexists & _ & Hnone & _).
  by exists fs', c'.
Defined.

(** An import that the user cancels, or that finds no document
    directory, touches neither the files nor the connection; the first
    returns [false], the second throws before the picker is shown. *)
Theorem importDatabase_without_effect
  (choice : PickResult) (fs : Files) (c : Connection) :
  (Js.truthy_str (documentDirectory fs) = false →
   importDatabase choice fs c
   = (Throw "Document directory not available", fs, c)) ∧
  (Js.truthy_str (documentDirectory fs) = true →
   importDatabase Canceled fs c = (Ok false, fs, c)).
Proof.
  unfold importDatabase.
  split; intros Hdir; rewrite Hdir; reflexivity.
Qed.

Lemma importDatabase_without_effect_witness :
  importDatabase (Assets "file:///cache/picked.db")
    MoreExamples.noDirectory MoreExamples.openConnection
  = (Throw "Document directory not available",
     MoreExamples.noDirectory, MoreExamples.openConnection) ∧
  importDatabase Canceled MoreExamples.phone MoreExamples.openConnection
  = (Ok false, MoreExamples.phone, MoreExamples.openConnection).
Proof.
  split.
  - exact (proj1 (importDatabase_without_effect _ MoreExamples.noDirectory
                    MoreExamples.openConnection) eq_refl).
  - exact (proj2 (importDatabase_without_effect Canceled MoreExamples.phone
                    MoreExamples.openConnection) eq_refl).
Defined.

(** X14.  The connection is opened once and shared: a second [getDb]
    returns the handle of the first and opens nothing.  No handle that
    [getDb] returns is a closed one, before and after
    [closeDatabaseConnection], which closes the handle in use and
    nothing when there is none. *)
Theorem getDb_shares_open_handle (c : Connection) :
  consistent c →
  getDb (snd (getDb c)) = (fst (getDb c), snd (getDb c)) ∧
  (fst (getDb c) ∉ closed (snd (getDb c))) ∧
  (fst (getDb (closeDatabaseConnection c))
     ∉ closed (snd (getDb (closeDatabaseConnection c)))) ∧
  closeDatabaseConnection (closeDatabaseConnection c)
    = closeDatabaseConnection c ∧
  consistent (snd (getDb c)) ∧
  consistent (closeDatabaseConnection c).
Proof.
  intros [Huse Hclosed].
  unfold getDb, closeDatabaseConnection, consistent.
  destruct (_dbInstance c) as [h |] eqn:Hh; simpl.
  - destruct (Huse h eq_refl) as [Hnot Hlt].
    rewrite Hh. simpl.
    split; [reflexivity |]. split; [exact Hnot |].
    split.
    { intros Hin. apply elem_of_cons in Hin as [Heq | Hin]; [lia |].
      apply Hclosed in Hin. lia. }
    split; [reflexivity |]. split.
    { split; [| exact Hclosed].
      intros h' [= <-]. by split. }
    split; [intros h' Hh'; discriminate Hh' |].
    intros h' Hin. apply elem_of_cons in Hin as [-> | Hin]; auto.
  - rewrite Hh. simpl.
    assert (Hfresh : opened c ∉ closed c).
    { intros Hin. apply Hclosed in Hin. lia. }
    split; [reflexivity |]. do 2 (split; [exact Hfresh |]).
    split; [reflexivity |]. split.
    { split.
      - intros h' [= <-]. split; [exact Hfresh | lia].
      - intros h' Hin. apply Hclosed in Hin. lia. }
    split; [intros h' Hh'; congruence | exact Hclosed].
Qed.

Lemma getDb_shares_open_handle_witness :
  getDb (snd (getDb MoreExamples.noConnection))
  = (0%nat, snd (getDb MoreExamples.noConnection)).
Proof.
  apply (getDb_shares_open_handle MoreExamples.noConnection).
  split; [intros h Hh; discriminate Hh |].
  intros h Hin. by apply not_elem_of_nil in Hin.
Defined.

End DeviceFacts.

(** ** Start-up, preferences and fetches *)

Section FlowFacts.
Import Database App Flow.

(** X15.  A full re-initialization whose reading of the authors succeeds
    ends with the library ready, the database not missing and the authors
    loaded; each preference the storage holds is loaded, each one it does
    not hold stays as it is; the request state is [loading], and the
    books, the selection and the page are as before. *)
Theorem runFullInit_loads
  (w : World) (m : Machine) (l : list Author.t) :
  getAllAuthors (storeAt w (calls m)) = Ok l →
  fst (runFullInit w m) = Ok tt ∧
  dbReady (app (snd (runFullInit w m))) = true ∧
  dbMissing (app (snd (runFullInit w m))) = false ∧
  authors (app (snd (runFullInit w m))) = l ∧
  loadingState (app (snd (runFullInit w m))) = loading ∧
  settings (app (snd (runFullInit w m)))
    = default (settings (app m)) (reader_settings_item (storage w)) ∧
  favorites (app (snd (runFullInit w m)))
    = default (favorites (app m)) (favorites_item (storage w)) ∧
  bookmarks (app (snd (runFullInit w m)))
    = default (bookmarks (app m)) (bookmarks_item (storage w)) ∧
  books (app (snd (runFullInit w m))) = books (app m) ∧
  selectedBook (app (snd (runFullInit w m))) = selectedBook (app m) ∧
  currentPage (app (snd (runFullInit w m))) = currentPage (app m).
Proof.
  intros Hauthors.
  unfold runFullInit, bind, note, set, whenSome, callStore, ret.
  destruct (reader_settings_item (storage w));
    destruct (favorites_item (storage w));
    destruct (bookmarks_item (storage w)); simpl;
    rewrite Hauthors; simpl; repeat split.
Qed.

Lemma runFullInit_loads_witness :
  favorites (app (snd (runFullInit
                         (withStorage MoreExamples.stored
                            (Examples.steady Examples.oneBook))
                         (start App.initialState)))) = [1; 3] ∧
  dbReady (app (snd (runFullInit
                       (withStorage MoreExamples.stored
                          (Examples.steady Examples.oneBook))
                       (start App.initialState)))) = true.
Proof.
  destruct (runFullInit_loads
              (withStorage MoreExamples.stored (Examples.steady Examples.oneBook))
              (start App.initialState) _ eq_refl)
    as (_ & Hready & _ & _ & _ & _ & Hfavs & _).
  split; [exact Hfavs | exact Hready].
Defined.

(** X16.  What the persist effect writes, a full re-initialization reads
    back: from any state, after a ready state was persisted, the
    favourites, the bookmarks and the reader settings are those of that
    state.  Before the library is ready the effect writes nothing. *)
Theorem persist_then_load
  (st : AppState) (s : AsyncStorage) (w : World) (m : Machine)
  (l : list Author.t) :
  getAllAuthors (storeAt w (calls m)) = Ok l →
  (dbReady st = true →
   favorites (app (snd (runFullInit (withStorage (persist st s) w) m)))
     = favorites st ∧
   bookmarks (app (snd (runFullInit (withStorage (persist st s) w) m)))
     = bookmarks st ∧
   settings (app (snd (runFullInit (withStorage (persist st s) w) m)))
     = settings st) ∧
  (dbReady st = false → persist st s = s).
Proof.
  intros Hauthors. unfold persist.
  split; intros Hready; rewrite Hready; [| reflexivity].
  unfold runFullInit, bind, note, set, whenSome, callStore, ret. simpl.
  rewrite Hauthors. simpl. repeat split.
Qed.

Lemma persist_then_load_witness :
  favorites (app (snd (runFullInit
                         (withStorage
                            (persist MoreExamples.withFavorites Examples.noStorage)
                            (Examples.steady Examples.oneBook))
                         (start App.initialState)))) = [1; 3].
Proof.
  destruct (persist_then_load MoreExamples.withFavorites Examples.noStorage
              (Examples.steady Examples.oneBook) (start App.initialState)
              _ eq_refl) as [Hload _].
  destruct (Hload eq_refl) as (Hfavs & _).
  exact Hfavs.
Defined.

(** X17.  Start-up without database file: no store function is called,
    the request state is [idle] and the screen asks for the database
    file. *)
Theorem init_database_missing (fs : Device.Files) (w : World) (m : Machine) :
  Device.checkDatabaseExists fs = false →
  fst (init fs w m) = Ok tt ∧
  trace (snd (init fs w m)) = trace m ∧
  calls (snd (init fs w m)) = calls m ∧
  dbMissing (app (snd (init fs w m))) = true ∧
  loadingState (app (snd (init fs w m))) = idle ∧
  render true (app (snd (init fs w m))) = DatabaseNotFound.
Proof.
  intros Hmissing. unfold init, tryCatch. rewrite Hmissing.
  repeat split.
Qed.

Lemma init_database_missing_witness :
  render true (app (snd (init MoreExamples.phone
                           (Examples.steady Examples.oneBook)
                           (start App.initialState)))) = DatabaseNotFound.
Proof.
  destruct (init_database_missing MoreExamples.phone
              (Examples.steady Examples.oneBook) (start App.initialState)
              eq_refl) as (_ & _ & _ & _ & _ & Hscreen).
  exact Hscreen.
Defined.

(** X18.  Start-up with a database file whose authors cannot be read: the
    error is swallowed, the library does not become ready, and from the
    first render the screen stays at 'Setting up library...'. *)
Theorem init_store_failure
  (fs : Device.Files) (w : World) (m : Machine) (e : string) :
  Device.checkDatabaseExists fs = true →
  getAllAuthors (storeAt w (calls m)) = Throw e →
  fst (init fs w m) = Ok tt ∧
  dbReady (app (snd (init fs w m))) = dbReady (app m) ∧
  dbMissing (app (snd (init fs w m))) = dbMissing (app m) ∧
  loadingState (app (snd (init fs w m))) = loading ∧
  (dbReady (app m) = false → dbMissing (app m) = false →
   render true (app (snd (init fs w m))) = SettingUpLibrary).
Proof.
  intros Hexists Hthrow. unfold init, tryCatch. rewrite Hexists. simpl.
  assert (Hrun : ∃ st', runFullInit w m
                        = (Throw e, {| app := st'; calls := S (calls m);
                                       trace := (trace m ++ [CallRunFullInit; CallGetAllAuthors])%list |})
                        ∧ dbReady st' = dbReady (app m)
                        ∧ dbMissing st' = dbMissing (app m)
                        ∧ loadingState st' = loading).
  { unfold runFullInit, bind, note, set, whenSome, callStore, ret.
    destruct (reader_settings_item (storage w));
      destruct (favorites_item (storage w));
      destruct (bookmarks_item (storage w)); simpl;
      rewrite Hthrow; simpl; rewrite <- app_assoc;
      eexists; repeat split. }
  destruct Hrun as (st' & -> & Hready & Hmissing & Hloading). simpl.
  repeat split; try assumption.
  intros Hr Hm. unfold render. simpl.
  rewrite Hmissing, Hm, Hready, Hr. reflexivity.
Qed.

Lemma init_store_failure_witness :
  render true (app (snd (init MoreExamples.phoneWithDatabase Examples.noTable
                           (start App.initialState)))) = SettingUpLibrary.
Proof.
  assert (Hexists : Device.checkDatabaseExists MoreExamples.phoneWithDatabase
                    = true) by (vm_compute; reflexivity).
  destruct (init_store_failure MoreExamples.phoneWithDatabase
              Examples.noTable (start App.initialState)
              "no such table: books" Hexists eq_refl)
    as (_ & _ & _ & _ & Hscreen).
  exact (Hscreen eq_refl eq_refl).
Defined.

(** How the timer callback of a fetch runs, by the outcome of its
    query. *)
Lemma fetchBooksTimer_cases (w : World) (c : AppState) (m : Machine) :
  (emptyIdView c = true ∧
   fetchBooksTimer w c m
   = (Ok tt, {| app := setLoadingState success
                         (setTotalPages 1 (setBooks [] (app m)));
                calls := calls m; trace := trace m |})) ∨
  (emptyIdView c = false ∧
   ∃ response,
     getAllBooks (storeAt w (calls m)) (fetchParams c) = Ok response ∧
     fetchBooksTimer w c m
     = (Ok tt,
        {| app := setLoadingState success
                    (setTotalPages (Database.totalPages (pagination response))
                       (setBooks (data response) (app m)));
           calls := S (calls m);
           trace := (trace m ++ [CallGetAllBooks (fetchParams c)])%list |})) ∨
  (emptyIdView c = false ∧
   ∃ msg,
     getAllBooks (storeAt w (calls m)) (fetchParams c) = Throw msg ∧
     fetchBooksTimer w c m
     = (when (connectionIssue msg) (runFullInit w) ;;;
        set (setLoadingState error))
         {| app := app m; calls := S (calls m);
            trace := (trace m ++ [CallGetAllBooks (fetchParams c)])%list |}).
Proof.
  destruct (emptyIdView c) eqn:Hview.
  - left. split; [reflexivity |].
    unfold fetchBooksTimer. rewrite Hview. reflexivity.
  - right.
    destruct (getAllBooks (storeAt w (calls m)) (fetchParams c))
      as [response | msg] eqn:Hquery.
    + left. split; [reflexivity |]. exists response. split; [reflexivity |].
      unfold fetchBooksTimer, tryCatch. rewrite Hview.
      unfold bind at 1, callStore at 1. rewrite Hquery. reflexivity.
    + right. split; [reflexivity |]. exists msg. split; [reflexivity |].
      unfold fetchBooksTimer, tryCatch. rewrite Hview.
      unfold bind at 1, callStore at 1. rewrite Hquery. reflexivity.
Qed.

(** After a re-initialization that returns, or none, the [error] state. *)
Lemma after_error_handler (w : World) (b : bool) (m : Machine) :
  fst ((when b (runFullInit w) ;;; set (setLoadingState error)) m) = Ok tt →
  loadingState
    (app (snd ((when b (runFullInit w) ;;; set (setLoadingState error)) m)))
  = error.
Proof.
  unfold bind. destruct (when b (runFullInit w) m) as [[[] | e] m'];
    [reflexivity | discriminate].
Qed.


Lemma data_length_limit (db : Tables) (params : Params.t) (r : Response) :
  getAllBooks (Opened db) params = Ok r →
  0 <= limit_of params →
  Z.of_nat (length (data r)) <= limit_of params.
Proof.
  intros Hr Hlimit. injection Hr as <-. simpl.
  rewrite length_map. by apply limit_offset_length.
Qed.

(** X19.  The fetch effect does nothing before the library is ready.
    Once it is, a fetch that returns has settled the request: the state is
    [success], with at most twenty books on the page, or [error]. *)
Theorem fetch_settles (w : World) (c : AppState) (m : Machine) :
  (dbReady c = false → fetchBooksEffect w c m = (Ok tt, m)) ∧
  (dbReady c = true →
   fst (fetchBooksEffect w c m) = Ok tt →
   (loadingState (app (snd (fetchBooksEffect w c m))) = success ∧
    (length (books (app (snd (fetchBooksEffect w c m)))) <= 20)%nat) ∨
   loadingState (app (snd (fetchBooksEffect w c m))) = error).
Proof.
  unfold fetchBooksEffect.
  split; intros Hready; rewrite Hready; [reflexivity |].
  set (m1 := {| app := setLoadingState loading (app m);
                calls := calls m; trace := trace m |}).
  change ((set (setLoadingState loading) ;;; fetchBooksTimer w c) m)
    with (fetchBooksTimer w c m1).
  destruct (fetchBooksTimer_cases w c m1)
    as [[_ ->] | [(_ & response & Hquery & ->) | (_ & msg & _ & ->)]].
  - intros _. left. split; [reflexivity | simpl; lia].
  - intros _. left. split; [reflexivity |]. simpl.
    change (calls m1) with (calls m) in Hquery.
    destruct (storeAt w (calls m)) as [db | e]; [| discriminate Hquery].
    apply data_length_limit in Hquery; [| cbn; lia].
    change (limit_of (fetchParams c)) with 20 in Hquery. lia.
  - intros Hok. right. by apply after_error_handler.
Qed.

Lemma fetch_settles_witness :
  (loadingState (app (snd (fetchBooksEffect (Examples.steady Examples.library25)
                             Examples.ready (start Examples.ready)))) = success ∧
   (length (books (app (snd (fetchBooksEffect (Examples.steady Examples.library25)
                               Examples.ready (start Examples.ready))))) <= 20)%nat) ∨
  loadingState (app (snd (fetchBooksEffect (Examples.steady Examples.library25)
                            Examples.ready (start Examples.ready)))) = error.
Proof.
  exact (proj2 (fetch_settles (Examples.steady Examples.library25)
                  Examples.ready (start Examples.ready)) eq_refl eq_refl).
Defined.




(** X21.  [handleBookSelect] never throws: whatever the store does, the
    book is selected, one store call is made and the loading flag is
    cleared at the end.  When the store fails, the chapters and the
    chapter index of the state stay those of the book read before. *)
Theorem handleBookSelect_always_completes
  (w : World) (c : AppState) (book : Book.t) (m : Machine) :
  fst (handleBookSelect w c book m) = Ok tt ∧
  selectedBook (app (snd (handleBookSelect w c book m))) = Some book ∧
  loadingChapters (app (snd (handleBookSelect w c book m))) = false ∧
  calls (snd (handleBookSelect w c book m)) = S (calls m) ∧
  (∀ e,
     getChaptersByBookId (storeAt w (calls m)) (Book.book_id book) = Throw e →
     chapters (app (snd (handleBookSelect w c book m))) = chapters (app m) ∧
     currentChapterIdx (app (snd (handleBookSelect w c book m)))
       = currentChapterIdx (app m)).
Proof.
  unfold handleBookSelect, tryFinally, tryCatch, bind, callStore, set, ret.
  simpl.
  destruct (getChaptersByBookId (storeAt w (calls m)) (Book.book_id book))
    as [cs | e']; simpl; repeat split; congruence.
Qed.

Lemma handleBookSelect_always_completes_witness :
  chapters (app (snd (handleBookSelect Examples.noTable MoreExamples.readingSecond
                        Examples.otherBook (start MoreExamples.readingSecond))))
  = chapters MoreExamples.readingSecond ∧
  selectedBook (app (snd (handleBookSelect Examples.noTable MoreExamples.readingSecond
                            Examples.otherBook (start MoreExamples.readingSecond))))
  = Some Examples.otherBook.
Proof.
  destruct (handleBookSelect_always_completes Examples.noTable
              MoreExamples.readingSecond Examples.otherBook
              (start MoreExamples.readingSecond))
    as (_ & Hbook & _ & _ & Hstale).
  destruct (Hstale _ eq_refl) as [Hchapters _].
  split; [exact Hchapters | exact Hbook].
Defined.

(** X22.  What the reader shows after a book is selected in a ready
    library and its chapters are fetched: the chapter at the saved
    bookmark, or at 0 without bookmark, if there is one at that index;
    'No Content Available' if there is none, as for a book without
    chapters or a bookmark past the last chapter. *)
Theorem reader_after_select
  (w : World) (c : AppState) (book : Book.t) (cs : list Chapter.t) :
  dbReady c = true →
  dbMissing c = false →
  getChaptersByBookId (storeAt w 0) (Book.book_id book) = Ok cs →
  readerView (app (snd (handleBookSelect w c book (start c))))
  = Some
      (match Js.index cs (default 0 (bookmarks c !! Book.book_id book)) with
       | Some chapter =>
           Reader.ChapterContent chapter
             (0 <? default 0 (bookmarks c !! Book.book_id book))
             (default 0 (bookmarks c !! Book.book_id book)
                <? Z.of_nat (length cs) - 1)
             (bool_decide (is_Some (bookmarks c !! Book.book_id book)))
       | None => Reader.NoContentAvailable (Book.title book)
       end).
Proof.
  intros Hready Hmissing Hfetch.
  unfold handleBookSelect, tryFinally, tryCatch, bind, callStore, set, start.
  simpl. rewrite Hfetch. simpl.
  unfold readerView, render. simpl. rewrite Hmissing, Hready. simpl.
  unfold Reader.Reader. simpl.
  assert (Hflag : isBookmarkedFlag
                    (setLoadingChapters false
                       (setCurrentChapterIdx
                          (match bookmarks c !! Book.book_id book with
                           | Some i => i
                           | None => 0
                           end)
                          (setChapters cs
                             (setLoadingChapters true
                                (setSelectedBook (Some book) c))))) book
                  = bool_decide (is_Some (bookmarks c !! Book.book_id book))).
  { unfold isBookmarkedFlag. simpl.
    destruct (bookmarks c !! Book.book_id book) as [i |] eqn:Hi.
    - rewrite bool_decide_eq_true_2 by reflexivity.
      symmetry. apply bool_decide_eq_true_2. by eexists.
    - rewrite bool_decide_eq_false_2 by discriminate.
      symmetry. apply bool_decide_eq_false_2. intros [i Hsome]. discriminate Hsome. }
  rewrite Hflag.
  destruct (bookmarks c !! Book.book_id book) as [i |]; reflexivity.
Qed.

Lemma reader_after_select_witness :
  readerView (app (snd (handleBookSelect (Examples.steady Examples.oneBook)
                          Examples.markedAtFour Examples.gitanjali
                          (start Examples.markedAtFour))))
  = Some (Reader.NoContentAvailable "Gitanjali").
Proof.
  exact (reader_after_select (Examples.steady Examples.oneBook)
           Examples.markedAtFour Examples.gitanjali _
           eq_refl eq_refl eq_refl).
Defined.

(** X23.  The page buttons keep the page within [1 .. totalPages]: from
    a page in that range, Prev and Next lead to a page in that range, Prev
    does nothing on page 1 and Next nothing on the last page; below the
    last page, Next and then Prev lead back to the page. *)
Theorem page_buttons_stay_in_range (st : AppState) :
  1 <= currentPage st <= totalPages st →
  1 <= currentPage (pressPrevPage st) <= totalPages (pressPrevPage st) ∧
  1 <= currentPage (pressNextPage st) <= totalPages (pressNextPage st) ∧
  (currentPage st = 1 → pressPrevPage st = st) ∧
  (currentPage st = totalPages st → pressNextPage st = st) ∧
  (currentPage st < totalPages st →
   currentPage (pressNextPage st) = currentPage st + 1 ∧
   currentPage (pressPrevPage (pressNextPage st)) = currentPage st).
Proof.
  intros Hrange. unfold pressPrevPage, pressNextPage.
  destruct (Z.eqb_spec (currentPage st) 1) as [H1 | H1];
    destruct (Z.eqb_spec (currentPage st) (totalPages st)) as [Hn | Hn];
    simpl; repeat split; try lia; try reflexivity;
    destruct (Z.eqb_spec (currentPage st + 1) 1); simpl; lia.
Qed.

Lemma page_buttons_stay_in_range_witness :
  currentPage (pressNextPage MoreExamples.secondOfThree) = 3 ∧
  currentPage (pressPrevPage (pressNextPage MoreExamples.secondOfThree)) = 2.
Proof.
  destruct (page_buttons_stay_in_range MoreExamples.secondOfThree
              ltac:(simpl; lia)) as (_ & _ & _ & _ & Hnext).
  apply Hnext. simpl. lia.
Defined.

(** X24.  The reader's Prev and Next buttons never leave the chapters:
    from an index at which there is a chapter they lead to an index at
    which there is one, Prev being without effect on the first chapter
    and Next on the last. *)
Theorem chapter_buttons_stay_in_range (st : AppState) :
  is_Some (Js.index (chapters st) (currentChapterIdx st)) →
  is_Some (Js.index (chapters (pressPrevChapter st))
             (currentChapterIdx (pressPrevChapter st))) ∧
  is_Some (Js.index (chapters (pressNextChapter st))
             (currentChapterIdx (pressNextChapter st))) ∧
  (currentChapterIdx st = 0 → pressPrevChapter st = st) ∧
  (currentChapterIdx st = Z.of_nat (length (chapters st)) - 1 →
   pressNextChapter st = st).
Proof.
  intros Hsome.
  assert (Hin : ∀ (l : list Chapter.t) i,
             is_Some (Js.index l i) ↔ 0 <= i <= Z.of_nat (length l) - 1).
  { intros l i. rewrite <- not_eq_None_Some, index_None.
    destruct (decide (0 <= i <= Z.of_nat (length l) - 1)); tauto. }
  apply Hin in Hsome.
  unfold pressPrevChapter, pressNextChapter.
  destruct (Z.ltb_spec 0 (currentChapterIdx st));
    destruct (Z.ltb_spec (currentChapterIdx st)
                (Z.of_nat (length (chapters st)) - 1));
    repeat split; try (apply Hin; simpl; lia);
    try reflexivity; intros; lia.
Qed.

Lemma chapter_buttons_stay_in_range_witness :
  is_Some (Js.index (chapters (pressNextChapter MoreExamples.readingSecond))
             (currentChapterIdx (pressNextChapter MoreExamples.readingSecond))).
Proof.
  apply (chapter_buttons_stay_in_range MoreExamples.readingSecond).
  vm_compute. by eexists.
Defined.

End FlowFacts.
